(** * kostats_scraper: a shallow embedding of the incremental downloader

    The Python script [kostats_scraper.py] logs in to a subscription site,
    lists the [.TXT] files of six sport pages, downloads the files it has
    not recorded yet and keeps a JSON history of what it fetched.

    The embedding follows the script method by method.  Everything the
    script does not compute itself (the remote site, the clock, the
    environment variables and the pure library routines it calls) is
    gathered in a record [World]; the mutable part (the [download_history]
    attribute, the files on disk and the chronological list of observable
    actions) is the state of a small state-and-exception monad. *)

From Stdlib Require Import ZArith Ascii String List Lia.
From stdpp Require Import base option list gmap strings fin_maps pretty.

Local Open Scope string_scope.
Local Open Scope list_scope.

(** ** String routines of the Python runtime used by the script *)

Module PyStr.

(** [s.startswith(p)] *)
Definition startswith (p s : string) : bool := String.prefix p s.

Fixpoint rev_onto (s acc : string) : string :=
  match s with
  | EmptyString => acc
  | String c r => rev_onto r (String c acc)
  end.

Definition reverse (s : string) : string := rev_onto s EmptyString.

(** [s.endswith(p)] *)
Definition endswith (p s : string) : bool :=
  String.prefix (reverse p) (reverse s).

(** [needle in hay] on strings *)
Fixpoint contains (needle hay : string) : bool :=
  if String.prefix needle hay then true
  else match hay with
       | EmptyString => false
       | String _ r => contains needle r
       end.

Definition lower_ascii (c : ascii) : ascii :=
  let n := nat_of_ascii c in
  if (Nat.leb 65 n && Nat.leb n 90)%bool then ascii_of_nat (n + 32) else c.

(** [s.lower()], on the ASCII letters *)
Fixpoint lower (s : string) : string :=
  match s with
  | EmptyString => EmptyString
  | String c r => String (lower_ascii c) (lower r)
  end.

(** Truthiness of a string: [if s], [not s]. *)
Definition truthy (s : string) : bool :=
  match s with EmptyString => false | _ => true end.

(** Truthiness of a value that may be [None]. *)
Definition truthy_opt (o : option string) : bool :=
  match o with Some s => truthy s | None => false end.

(** [re.compile(r'\.TXT$', re.IGNORECASE).search(s)]: the text ends in
    [.txt] in any letter case; [$] also matches just before one final
    newline. *)
Definition nl : string := String (ascii_of_nat 10) EmptyString.

Definition search_dot_txt (s : string) : bool :=
  let l := lower s in
  (endswith ".txt" l || endswith (".txt" +:+ nl) l)%bool.

(** [posixpath.basename(p)]: what follows the last slash. *)
Fixpoint basename_from (s cur : string) : string :=
  match s with
  | EmptyString => reverse cur
  | String c r =>
      if Ascii.eqb c "/"%char then basename_from r EmptyString
      else basename_from r (String c cur)
  end.

Definition basename (p : string) : string := basename_from p EmptyString.

(** [posixpath.join(a, b)] *)
Definition join2 (a b : string) : string :=
  if startswith "/" b then b
  else if (negb (truthy a) || endswith "/" a)%bool then a +:+ b
  else a +:+ "/" +:+ b.

(** [posixpath.join(a, *p)] *)
Definition join (a : string) (p : list string) : string :=
  fold_left join2 p a.

End PyStr.

(** ** Configuration constants of the script *)

Definition BASE_URL : string := "http://www.kostats.com".
Definition LOGIN_URL : string := "http://www.kostats.com/amember5/member".

(** [SPORT_PAGES], in the order the dictionary literal lists its keys. *)
Definition SPORT_PAGES : list (string * string) :=
  [ ("CBK", "http://www.kostats.com/CBK_Subscription/CBK.HTM");
    ("CFB", "http://www.kostats.com/CFB_Subscription/CFB.HTM");
    ("MLB", "http://www.kostats.com/MLB_Subscription/MLB.HTM");
    ("NBA", "http://www.kostats.com/NBA_Subscription/NBA.HTM");
    ("NFL", "http://www.kostats.com/NFL_Subscription/NFL.HTM");
    ("NHL", "http://www.kostats.com/NHL_Subscription/NHL.HTM") ].

(** [SPORT_PAGES.get(code)] *)
Fixpoint dict_get (d : list (string * string)) (k : string) : option string :=
  match d with
  | [] => None
  | (k', v) :: r => if String.eqb k' k then Some v else dict_get r k
  end.

(** [SPORT_PAGES.keys()] *)
Definition dict_keys (d : list (string * string)) : list string := map fst d.

(** ** Data model *)

(** The value stored for a downloaded file. *)
Record DownloadRecord := mkRecord {
  downloaded_at : string;
  url : string
}.

(** [download_history]: sport code -> file name -> record. *)
Abbreviation History := (gmap string (gmap string DownloadRecord)).

(** Exceptions that cross method boundaries. *)
Inductive exn :=
| ValueError (msg : string)
| RequestException (detail : string)
| UnicodeDecodeError (detail : string)
| RecursionError (detail : string)
| FileNotFoundError (path : string).

Inductive outcome (A : Type) :=
| Ret (a : A)
| Raise (e : exn).
Arguments Ret {A} a.
Arguments Raise {A} e.

Record Response := mkResponse {
  status_code : Z;
  text : string;
  content : string
}.

Inductive level := INFO | ERROR.

(** What [json.load(f)] may do on the bytes of the history file.  It
    returns the value of the document, it raises [json.JSONDecodeError]
    on text that is not JSON, or it raises something else: reading the
    file raises [UnicodeDecodeError] on bytes that are not text in the
    locale's encoding, and the parser raises [RecursionError] on nesting
    deeper than the interpreter's limit.

    [JsonValue h] stands for a document that is an object of objects of
    records, the only shape the script itself writes.  The script takes
    any other JSON value ([[]], [null], a number) as its history without
    a check; what it then does is not modelled. *)
Inductive json_result :=
| JsonValue (h : History)
| JSONDecodeError
| JsonRaises (e : exn).

(** Observable actions, most recent first in a trace. *)
Inductive event :=
| EGet (u : string)
| EPost (u : string) (data : gmap string string)
| EOpenW (path : string)
| EWrite (path : string) (data : string)
| ESleep (secs : Z)
| ELog (lv : level) (msg : string).

(** A [<form>] as the login code reads it: its [action] attribute and the
    [name] and [value] attributes of its [<input>] fields. *)
Record Form := mkForm {
  form_action : option string;
  form_inputs : list (option string * option string)
}.

(** Everything outside the script.  The site and the clock may answer
    differently as time passes: they see the actions performed so far. *)
Record World := mkWorld {
  env_DOWNLOAD_DIR : option string;
  env_USERNAME : option string;
  env_PASSWORD : option string;
  session_get : list event -> string -> outcome Response;
  session_post : list event -> string -> gmap string string -> outcome Response;
  datetime_now_isoformat : list event -> string;
  (** [soup.find('form', {'id': 'am-login-form'}) or
      soup.find('form', {'action': re.compile(r'login')})] *)
  soup_find_login_form : string -> option Form;
  (** the [href] of every [<a>] carrying one, in document order *)
  soup_anchor_hrefs : string -> list string;
  (** [urljoin(base, url)]; it raises [ValueError] on a reference it
      cannot split, such as one with an unmatched bracket in its host *)
  urljoin : string -> string -> outcome string;
  json_load : string -> json_result;
  (** [json.dump(h, f, indent=2)]: the chunks it passes to [f.write],
      in order *)
  json_dump : History -> list string;
  (** [open(path, 'wb')] for a path whose directory the script did not
      create: the exception it raises, if any ([FileNotFoundError] when
      the directory is missing) *)
  open_error : string -> option exn
}.

(** State: the scraper object, the disk, the trace. *)
Record Scraper := mkScraper {
  download_history : History;
  disk : gmap string string;
  trace : list event
}.

(** ** State-and-exception monad *)

Definition M (A : Type) : Type := Scraper -> Scraper * outcome A.

Definition ret {A} (a : A) : M A := fun s => (s, Ret a).

Definition bind {A B} (m : M A) (k : A -> M B) : M B :=
  fun s => match m s with
           | (s', Ret a) => k a s'
           | (s', Raise e) => (s', Raise e)
           end.

Definition raise {A} (e : exn) : M A := fun s => (s, Raise e).

(** A library call that touches nothing and may raise. *)
Definition lift {A} (o : outcome A) : M A := fun s => (s, o).

Notation "'let*' x ':=' m 'in' k" := (bind m (fun x => k))
  (at level 10, x name, m at level 100, k at level 200).
Notation "m ';;;' k" := (bind m (fun _ => k))
  (at level 100, k at level 200, right associativity).

Definition emit (e : event) : M unit :=
  fun s => (mkScraper (download_history s) (disk s) (e :: trace s), Ret tt).

Definition get_history : M History := fun s => (s, Ret (download_history s)).

Definition set_history (h : History) : M unit :=
  fun s => (mkScraper h (disk s) (trace s), Ret tt).

(** [logger.info(msg)], [logger.error(msg)].  The line is kept in the
    trace.  The handlers also print it and append it to the log file
    [kostats_scraper.log], which lies outside the download directory and
    is not among the files of [disk]. *)
Definition logger (lv : level) (msg : string) : M unit := emit (ELog lv msg).

Definition time_sleep (secs : Z) : M unit := emit (ESleep secs).

(** [open(path, 'w')] in a directory that exists: the file exists and
    is empty from here on. *)
Definition fs_open_w (path : string) : M unit :=
  fun s => (mkScraper (download_history s) (<[path := ""]> (disk s))
                      (EOpenW path :: trace s), Ret tt).

(** [f.write(data)]: appended to what the file holds. *)
Definition fs_write (path data : string) : M unit :=
  fun s => (mkScraper (download_history s)
                      (<[path := default "" (disk s !! path) +:+ data]> (disk s))
                      (EWrite path data :: trace s), Ret tt).

(** ** The script *)

Section Script.

Variable w : World.

(** [BASE_DOWNLOAD_DIR = os.getenv("DOWNLOAD_DIR", "downloads")] *)
Definition BASE_DOWNLOAD_DIR : string := default "downloads" (env_DOWNLOAD_DIR w).

(** [HISTORY_FILE = os.path.join(BASE_DOWNLOAD_DIR, "download_history.json")] *)
Definition HISTORY_FILE : string :=
  PyStr.join BASE_DOWNLOAD_DIR ["download_history.json"].

(** [self.session.get(u)]: the request is observable whether it returns
    or raises. *)
Definition http_get (u : string) : M Response :=
  fun s =>
    (mkScraper (download_history s) (disk s) (EGet u :: trace s),
     session_get w (trace s) u).

(** [self.session.post(u, data=data)] *)
Definition http_post (u : string) (data : gmap string string) : M Response :=
  fun s =>
    (mkScraper (download_history s) (disk s) (EPost u data :: trace s),
     session_post w (trace s) u data).

Definition datetime_now : M string :=
  fun s => (s, Ret (datetime_now_isoformat w (trace s))).

(** [os.path.exists(HISTORY_FILE)] and the text read from it *)
Definition read_history_file : M (option string) :=
  fun s => (s, Ret (disk s !! HISTORY_FILE)).

Definition _load_download_history : M History :=
  let* f := read_history_file in
  match f with
  | Some txt =>
      match json_load w txt with
      | JsonValue h => ret h
      | JSONDecodeError =>
          logger ERROR "Error reading history file, starting fresh";;;
          ret ∅
      | JsonRaises e => raise e
      end
  | None => ret ∅
  end.

(** The writes of [_save_download_history], one per step: the [open]
    and then each chunk of [json.dump]. *)
Definition save_steps (h : History) : list (M unit) :=
  fs_open_w HISTORY_FILE :: map (fs_write HISTORY_FILE) (json_dump w h).

Fixpoint do_steps (l : list (M unit)) : M unit :=
  match l with
  | [] => ret tt
  | m :: r => m;;; do_steps r
  end.

Definition _save_download_history : M unit :=
  let* h := get_history in
  do_steps (save_steps h).

(** [__init__].  The directories it creates (the base directory and one
    per key of [SPORT_PAGES]) hold no content and are not part of the
    state; they are there for every later call, see
    [open_download_error]. *)
Definition __init__ : M unit :=
  if (negb (PyStr.truthy_opt (env_USERNAME w))
      || negb (PyStr.truthy_opt (env_PASSWORD w)))%bool
  then raise (ValueError
    "Missing credentials. Set KOSTATS_USERNAME and KOSTATS_PASSWORD in .env file")
  else
    let* h := _load_download_history in
    set_history h.

(** [form_data[name] = input_field.get('value', '')] for each named input *)
Definition add_input (d : gmap string string)
    (i : option string * option string) : gmap string string :=
  if PyStr.truthy_opt (fst i) then <[default "" (fst i) := default "" (snd i)]> d
  else d.

(** Where the form is sent:
    [action = form.get('action') or LOGIN_URL], resolved against
    [BASE_URL] unless it starts with [http]. *)
Definition form_target (form : Form) : outcome string :=
  let action :=
    if PyStr.truthy_opt (form_action form)
    then default "" (form_action form) else LOGIN_URL in
  if negb (PyStr.startswith "http" action)
  then urljoin w BASE_URL action else Ret action.

Definition login : M bool :=
  logger INFO "Logging in to KOStats";;;
  let* login_page := http_get LOGIN_URL in
  match soup_find_login_form w (text login_page) with
  | None =>
      logger ERROR "Could not find login form";;;
      ret false
  | Some form =>
      let* action := lift (form_target form) in
      let form_data := fold_left add_input (form_inputs form) ∅ in
      let form_data := <["amember_login" := default "" (env_USERNAME w)]> form_data in
      let form_data := <["amember_pass" := default "" (env_PASSWORD w)]> form_data in
      let* response := http_post action form_data in
      if (PyStr.contains "logout" (PyStr.lower (text response))
          || PyStr.contains "my account" (PyStr.lower (text response)))%bool
      then logger INFO "Login successful";;; ret true
      else logger ERROR "Login failed";;; ret false
  end.

(** The [for link in soup.find_all('a', href=...)] loop: one
    [(file_name, file_url)] pair per matching link, in document order.
    The first link [urljoin] raises on ends the loop with that
    exception. *)
Fixpoint collect_links (sport_url : string) (hrefs : list string)
    : outcome (list (string * string)) :=
  match hrefs with
  | [] => Ret []
  | href :: rest =>
      match urljoin w sport_url href with
      | Ret file_url =>
          match collect_links sport_url rest with
          | Ret links => Ret ((PyStr.basename file_url, file_url) :: links)
          | Raise e => Raise e
          end
      | Raise e => Raise e
      end
  end.

Definition get_file_links (sport_code : string) : M (list (string * string)) :=
  let sport_url := dict_get SPORT_PAGES sport_code in
  if negb (PyStr.truthy_opt sport_url) then
    logger ERROR ("Unknown sport code: " +:+ sport_code);;;
    ret []
  else
    let sport_url := default "" sport_url in
    logger INFO ("Getting file links for " +:+ sport_code);;;
    let* response := http_get sport_url in
    if negb (status_code response =? 200)%Z then
      logger ERROR ("Failed to access " +:+ sport_url +:+ ", status code: "
                    +:+ pretty (status_code response));;;
      ret []
    else
      let* links :=
        lift (collect_links sport_url
                (List.filter PyStr.search_dot_txt
                   (soup_anchor_hrefs w (text response)))) in
      logger INFO ("Found " +:+ pretty (length links) +:+ " files for " +:+ sport_code);;;
      ret links.

(** What [open(file_path, 'wb')] raises, if anything, for the
    destination of a download.  [__init__] has created the directory
    [<base>/<sport_code>] of every key of [SPORT_PAGES], so a name
    without a slash under such a key lands in a directory that is there,
    and the [open] is then taken to succeed; for any other destination
    the environment decides. *)
Definition open_download_error (sport_code file_name : string) : option exn :=
  if (bool_decide (sport_code ∈ dict_keys SPORT_PAGES)
      && negb (PyStr.contains "/" file_name))%bool
  then None
  else open_error w (PyStr.join BASE_DOWNLOAD_DIR [sport_code; file_name]).

(** [open(file_path, 'wb')] for a download *)
Definition open_download (sport_code file_name file_path : string) : M unit :=
  match open_download_error sport_code file_name with
  | None => fs_open_w file_path
  | Some e => raise e
  end.

(** [sport_code in h and file_name in h[sport_code]] *)
Definition already_downloaded (h : History) (sport_code file_name : string) : bool :=
  match h !! sport_code with
  | Some files => bool_decide (is_Some (files !! file_name))
  | None => false
  end.

Definition download_file (sport_code file_name file_url : string) : M bool :=
  let* h := get_history in
  if already_downloaded h sport_code file_name then
    logger INFO ("Skipping " +:+ file_name +:+ " - already downloaded");;;
    ret false
  else
    logger INFO ("Downloading " +:+ file_name);;;
    let* response := http_get file_url in
    if negb (status_code response =? 200)%Z then
      logger ERROR ("Failed to download " +:+ file_url +:+ ", status code: "
                    +:+ pretty (status_code response));;;
      ret false
    else
      let file_path := PyStr.join BASE_DOWNLOAD_DIR [sport_code; file_name] in
      open_download sport_code file_name file_path;;;
      fs_write file_path (content response);;;
      let h := match h !! sport_code with
               | Some _ => h
               | None => <[sport_code := ∅]> h
               end in
      let* now := datetime_now in
      set_history (<[sport_code :=
                      <[file_name := mkRecord now file_url]>
                        (default ∅ (h !! sport_code))]> h);;;
      logger INFO ("Successfully downloaded " +:+ file_name);;;
      ret true.

(** The [for file_name, file_url in file_links] loop of [process_sport]. *)
Fixpoint for_links (sport_code : string) (file_links : list (string * string))
    (downloaded_count : Z) : M Z :=
  match file_links with
  | [] => ret downloaded_count
  | (file_name, file_url) :: rest =>
      let* got := download_file sport_code file_name file_url in
      let downloaded_count :=
        if got then (downloaded_count + 1)%Z else downloaded_count in
      time_sleep 1;;;
      for_links sport_code rest downloaded_count
  end.

Definition process_sport (sport_code : string) : M Z :=
  let* file_links := get_file_links sport_code in
  let* downloaded_count := for_links sport_code file_links 0 in
  logger INFO ("Downloaded " +:+ pretty downloaded_count +:+ " new files for "
               +:+ sport_code);;;
  ret downloaded_count.

(** The [for sport_code in SPORT_PAGES.keys()] loop of [run]. *)
Fixpoint for_sports (codes : list string) (total_downloaded : Z) : M Z :=
  match codes with
  | [] => ret total_downloaded
  | sport_code :: rest =>
      let* n := process_sport sport_code in
      for_sports rest (total_downloaded + n)%Z
  end.

Definition run : M unit :=
  let* ok := login in
  if negb ok then
    logger ERROR "Login failed, aborting";;;
    ret tt
  else
    let* total_downloaded := for_sports (dict_keys SPORT_PAGES) 0 in
    _save_download_history;;;
    logger INFO ("Scraper completed. Downloaded " +:+ pretty total_downloaded
                 +:+ " new files in total.").

(** The [__main__] block, started on a given disk. *)
Definition main (d : gmap string string) : Scraper * outcome unit :=
  (logger INFO "Starting KOStats scraper";;;
   __init__;;;
   run) (mkScraper ∅ d []).

End Script.

(** ** Reading traces and histories *)

(** The URLs requested with GET, oldest first. *)
Definition fetched (t : list event) : list string :=
  omap (fun e => match e with EGet u => Some u | _ => None end) (rev t).

(** The files opened for writing, oldest first. *)
Definition opened (t : list event) : list string :=
  omap (fun e => match e with EOpenW p => Some p | _ => None end) (rev t).

(** The names recorded for a sport code. *)
Definition names_of (h : History) (sport_code : string) : gset string :=
  dom (default ∅ (h !! sport_code)).

(** The record of a (sport code, file name) pair, if any. *)
Definition record_of (h : History) (sport_code file_name : string)
    : option DownloadRecord :=
  h !! sport_code ≫= fun files => files !! file_name.

(** What a successful download stores in the history. *)
Definition record_download (h : History) (sport_code file_name : string)
    (r : DownloadRecord) : History :=
  <[sport_code := <[file_name := r]> (default ∅ (h !! sport_code))]> h.

(** The listed items not yet recorded, first occurrence of each name, in
    listing order. *)
Fixpoint delta (A : gset string) (B : list (string * string))
    : list (string * string) :=
  match B with
  | [] => []
  | (n, u) :: r =>
      if decide (n ∈ A) then delta A r else (n, u) :: delta ({[n]} ∪ A) r
  end.

(** The text a file holds once the chunks were written in order. *)
Fixpoint written_text (chunks : list string) : string :=
  match chunks with
  | [] => ""
  | x :: r => x +:+ written_text r
  end.

(** The first [n] characters of a text, all of it when it is shorter. *)
Fixpoint take_chars (n : nat) (s : string) : string :=
  match n, s with
  | S n', String c r => String c (take_chars n' r)
  | _, _ => ""
  end.

(** [logging.FileHandler("kostats_scraper.log")]: the file every log
    line is appended to, in the working directory. *)
Definition LOG_FILE : string := "kostats_scraper.log".

(** ** Vocabulary for stating what the script does *)

Section Vocabulary.

Variable w : World.

(** Destination of a download: [<base>/<sport_code>/<file_name>]. *)
Definition file_path_of (sport_code file_name : string) : string :=
  PyStr.join (BASE_DOWNLOAD_DIR w) [sport_code; file_name].

(** Trace at the moment the file request is sent. *)
Definition trace_downloading (file_name : string) (t : list event) : list event :=
  ELog INFO ("Downloading " +:+ file_name) :: t.

(** Trace at the moment the clock is read after a successful fetch. *)
Definition trace_written (c n u : string) (r : Response) (t : list event)
    : list event :=
  EWrite (file_path_of c n) (content r) :: EOpenW (file_path_of c n)
  :: EGet u :: trace_downloading n t.

(** The links [get_file_links] builds from a page that answered 200,
    or the exception the resolution of one of them raises. *)
Definition links_of_page (sport_url : string) (r : Response)
    : outcome (list (string * string)) :=
  collect_links w sport_url
    (List.filter PyStr.search_dot_txt (soup_anchor_hrefs w (text r))).

(** Trace at the moment the listing page is requested. *)
Definition trace_listing (c : string) (t : list event) : list event :=
  ELog INFO ("Getting file links for " +:+ c) :: t.

(** Every call of [download_file] falls in one of five cases. *)
Inductive download_case (c n u : string) (s : Scraper)
    : Scraper * outcome bool -> Prop :=
| case_skip :
    n ∈ names_of (download_history s) c →
    download_case c n u s
      (mkScraper (download_history s) (disk s)
         (ELog INFO ("Skipping " +:+ n +:+ " - already downloaded") :: trace s),
       Ret false)
| case_raise e :
    n ∉ names_of (download_history s) c →
    session_get w (trace_downloading n (trace s)) u = Raise e →
    download_case c n u s
      (mkScraper (download_history s) (disk s)
         (EGet u :: trace_downloading n (trace s)),
       Raise e)
| case_status r :
    n ∉ names_of (download_history s) c →
    session_get w (trace_downloading n (trace s)) u = Ret r →
    status_code r ≠ 200%Z →
    download_case c n u s
      (mkScraper (download_history s) (disk s)
         (ELog ERROR ("Failed to download " +:+ u +:+ ", status code: "
                      +:+ pretty (status_code r))
          :: EGet u :: trace_downloading n (trace s)),
       Ret false)
| case_open_refused r e :
    n ∉ names_of (download_history s) c →
    session_get w (trace_downloading n (trace s)) u = Ret r →
    status_code r = 200%Z →
    open_download_error w c n = Some e →
    download_case c n u s
      (mkScraper (download_history s) (disk s)
         (EGet u :: trace_downloading n (trace s)),
       Raise e)
| case_ok r :
    n ∉ names_of (download_history s) c →
    session_get w (trace_downloading n (trace s)) u = Ret r →
    status_code r = 200%Z →
    open_download_error w c n = None →
    download_case c n u s
      (mkScraper
         (record_download (download_history s) c n
            (mkRecord (datetime_now_isoformat w (trace_written c n u r (trace s))) u))
         (<[file_path_of c n := content r]> (disk s))
         (ELog INFO ("Successfully downloaded " +:+ n)
          :: trace_written c n u r (trace s)),
       Ret true).

Inductive listing_case (c : string) (s : Scraper)
    : Scraper * outcome (list (string * string)) -> Prop :=
| listing_unknown :
    dict_get SPORT_PAGES c = None →
    listing_case c s
      (mkScraper (download_history s) (disk s)
         (ELog ERROR ("Unknown sport code: " +:+ c) :: trace s),
       Ret [])
| listing_raise sport_url e :
    dict_get SPORT_PAGES c = Some sport_url →
    session_get w (trace_listing c (trace s)) sport_url = Raise e →
    listing_case c s
      (mkScraper (download_history s) (disk s)
         (EGet sport_url :: trace_listing c (trace s)),
       Raise e)
| listing_status sport_url r :
    dict_get SPORT_PAGES c = Some sport_url →
    session_get w (trace_listing c (trace s)) sport_url = Ret r →
    status_code r ≠ 200%Z →
    listing_case c s
      (mkScraper (download_history s) (disk s)
         (ELog ERROR ("Failed to access " +:+ sport_url +:+ ", status code: "
                      +:+ pretty (status_code r))
          :: EGet sport_url :: trace_listing c (trace s)),
       Ret [])
| listing_bad_link sport_url r e :
    dict_get SPORT_PAGES c = Some sport_url →
    session_get w (trace_listing c (trace s)) sport_url = Ret r →
    status_code r = 200%Z →
    links_of_page sport_url r = Raise e →
    listing_case c s
      (mkScraper (download_history s) (disk s)
         (EGet sport_url :: trace_listing c (trace s)),
       Raise e)
| listing_ok sport_url r links :
    dict_get SPORT_PAGES c = Some sport_url →
    session_get w (trace_listing c (trace s)) sport_url = Ret r →
    status_code r = 200%Z →
    links_of_page sport_url r = Ret links →
    listing_case c s
      (mkScraper (download_history s) (disk s)
         (ELog INFO ("Found " +:+ pretty (length links)
                     +:+ " files for " +:+ c)
          :: EGet sport_url :: trace_listing c (trace s)),
       Ret links).

(** What a stretch of the loop over the links [B] may have done between
    state [s] and state [s'], having produced the events [ev]. *)
Record effects (c : string) (B : list (string * string))
    (s s' : Scraper) (ev : list event) : Prop := {
  eff_trace : trace s' = ev ++ trace s;
  eff_frame : ∀ c', c' ≠ c →
    download_history s' !! c' = download_history s !! c';
  eff_keep : ∀ c' n' r,
    record_of (download_history s) c' n' = Some r →
    record_of (download_history s') c' n' = Some r;
  eff_names : ∀ n',
    n' ∈ names_of (download_history s') c →
    n' ∈ names_of (download_history s) c ∨ n' ∈ map fst B;
  eff_disk : ∀ p, p ∉ opened ev → disk s' !! p = disk s !! p;
  eff_opened : ∀ p, p ∈ opened ev →
    ∃ n u, (n, u) ∈ B ∧ p = file_path_of c n
           ∧ n ∉ names_of (download_history s) c;
  eff_fetched : ∀ u, u ∈ fetched ev →
    ∃ n, (n, u) ∈ B ∧ n ∉ names_of (download_history s) c
}.

(** What processing the sports [codes] may have done between [s] and
    [s'], having produced the events [ev]. *)
Record sports_effects (codes : list string) (s s' : Scraper)
    (ev : list event) : Prop := {
  se_trace : trace s' = ev ++ trace s;
  se_frame : ∀ c', c' ∉ codes →
    download_history s' !! c' = download_history s !! c';
  se_keep : ∀ c' n' r,
    record_of (download_history s) c' n' = Some r →
    record_of (download_history s') c' n' = Some r;
  se_disk : ∀ p, p ∉ opened ev → disk s' !! p = disk s !! p;
  se_opened : ∀ p, p ∈ opened ev →
    ∃ c n, c ∈ codes ∧ p = file_path_of c n
           ∧ n ∉ names_of (download_history s) c
}.

(** What [_save_download_history] leaves behind when the process is
    killed after the [open] and [k] calls of [f.write].  The [open] has
    emptied the file.  The file object is buffered: of the text handed to
    it so far only a first part, its first [flushed] characters, has
    reached the disk; the rest was still in the buffer. *)
Definition killed_save (k flushed : nat) (s : Scraper) : Scraper :=
  let chunks := take k (json_dump w (download_history s)) in
  mkScraper (download_history s)
    (<[HISTORY_FILE w := take_chars flushed (written_text chunks)]> (disk s))
    (rev (map (EWrite (HISTORY_FILE w)) chunks)
     ++ EOpenW (HISTORY_FILE w) :: trace s).

End Vocabulary.

Arguments eff_trace {w c B s s' ev} _.
Arguments eff_frame {w c B s s' ev} _ c' _.
Arguments eff_keep {w c B s s' ev} _ c' n' r _.
Arguments eff_names {w c B s s' ev} _ n' _.
Arguments eff_disk {w c B s s' ev} _ p _.
Arguments eff_opened {w c B s s' ev} _ p _.
Arguments eff_fetched {w c B s s' ev} _ u _.
Arguments se_trace {w codes s s' ev} _.
Arguments se_frame {w codes s s' ev} _ c' _.
Arguments se_keep {w codes s s' ev} _ c' n' r _.
Arguments se_disk {w codes s s' ev} _ p _.
Arguments se_opened {w codes s s' ev} _ p _.

(** The listing of a sport when its page answers the same at all times. *)
Definition catalog (w : World) (c : string) : list (string * string) :=
  match dict_get SPORT_PAGES c with
  | Some sport_url =>
      match session_get w [] sport_url with
      | Ret r =>
          if (status_code r =? 200)%Z
          then match links_of_page w sport_url r with
               | Ret links => links
               | Raise _ => []
               end
          else []
      | Raise _ => []
      end
  | None => []
  end.

(** ** Sample worlds

    Small sites on which the statements below are exercised.  A listing
    page is a blank-separated list of links; the library routines are
    stand-ins that behave like the real ones on these pages. *)

Module Sample.

Definition CBK_URL : string := "http://www.kostats.com/CBK_Subscription/CBK.HTM".

Definition ok (body : string) : outcome Response := Ret (mkResponse 200 body body).

Definition not_found : outcome Response := Ret (mkResponse 404 "" "").

Definition refused : outcome Response := Raise (RequestException "connection refused").

(** The directory part of a URL, with its final slash. *)
Definition dir_of (u : string) : string :=
  String.substring 0 (String.length u - String.length (PyStr.basename u)) u.

(** Resolution of the references the sample pages use.  Like the real
    routine it refuses a reference with an opening bracket and no closing
    one. *)
Definition sample_urljoin (base href : string) : outcome string :=
  if (PyStr.contains "[" href && negb (PyStr.contains "]" href))%bool
  then Raise (ValueError "Invalid IPv6 URL")
  else if PyStr.startswith "http" href then Ret href
  else if PyStr.startswith "/" href then Ret (BASE_URL +:+ href)
  else Ret (dir_of base +:+ href).

Definition login_form : Form :=
  mkForm (Some "/amember5/login")
         [(Some "login_attempt_id", Some "17"); (None, Some "Login")].

(** A stand-in reader and writer of the history file. *)
Definition sample_json_load (s : string) : json_result :=
  if String.eqb s "{}" then JsonValue ∅
  else if String.eqb s "{CBK:{}}" then JsonValue {["CBK" := ∅]}
  else JSONDecodeError.

Definition sample_json_dump (h : History) : list string :=
  ["{"; pretty (size h); "}"].

(** A site that answers [get u] to a GET of [u] at all times, and lets
    every login in. *)
Definition world_of (get : string -> outcome Response) : World := {|
  env_DOWNLOAD_DIR := None;
  env_USERNAME := Some "user";
  env_PASSWORD := Some "secret";
  session_get := fun _ u => get u;
  session_post := fun _ _ _ => ok "Welcome - Logout";
  datetime_now_isoformat := fun t => "T" +:+ pretty (length t);
  soup_find_login_form := fun page =>
    if String.eqb page "login page" then Some login_form else None;
  soup_anchor_hrefs := String.words;
  urljoin := sample_urljoin;
  json_load := sample_json_load;
  json_dump := sample_json_dump;
  open_error := fun path => Some (FileNotFoundError path)
|}.

(** A site whose CBK page lists [cbk_links], whose other sport pages list
    nothing and whose files answer [file]. *)
Definition site (cbk_links : string) (file : string -> outcome Response)
    (u : string) : outcome Response :=
  if String.eqb u LOGIN_URL then ok "login page"
  else if String.eqb u CBK_URL then ok cbk_links
  else if existsb (String.eqb u) (map snd SPORT_PAGES) then ok ""
  else file u.

Definition file_ok (u : string) : outcome Response := ok ("data of " +:+ u).

(** Two files, the first listed twice; everything is served. *)
Definition w_ok : World :=
  world_of (site "A.TXT notes.html B.txt A.TXT" file_ok).

(** One listed file, which the site does not serve. *)
Definition w_missing : World :=
  world_of (site "A.TXT" (fun _ => not_found)).

(** The CBK page cannot be reached. *)
Definition w_down : World :=
  world_of (fun u => if String.eqb u CBK_URL then refused
                     else site "" file_ok u).

(** Two links with the same last segment; only the second is served. *)
Definition w_collision : World :=
  world_of (site "old/X.TXT new/X.TXT"
    (fun u => if String.eqb u "http://www.kostats.com/CBK_Subscription/old/X.TXT"
              then not_found else file_ok u)).

(** Two links with the same last segment, both served. *)
Definition w_twins : World :=
  world_of (site "old/X.TXT new/X.TXT" file_ok).

Definition a_record : DownloadRecord :=
  mkRecord "2025-01-01T00:00:00" "http://www.kostats.com/CBK_Subscription/A.TXT".

(** A fresh scraper on an empty disk. *)
Definition s_fresh : Scraper := mkScraper ∅ ∅ [].

(** A scraper that has recorded [A.TXT] for CBK. *)
Definition s_has_A : Scraper :=
  mkScraper {["CBK" := {["A.TXT" := a_record]}]} ∅ [].

(** A scraper about to save over a store that was written earlier. *)
Definition s_saved_before : Scraper :=
  mkScraper {["CBK" := {["A.TXT" := a_record]}]}
            {["downloads/download_history.json" := "{CBK:{}}"]} [].

(** A disk whose history file is not JSON. *)
Definition s_corrupt : Scraper :=
  mkScraper ∅ {["downloads/download_history.json" := "{CBK:"]} [].

End Sample.

(** ** More vocabulary: posts, pauses, form fields *)

(** The POST requests sent, oldest first, each with its form data. *)
Definition posted (t : list event) : list (string * gmap string string) :=
  omap (fun e => match e with EPost u d => Some (u, d) | _ => None end) (rev t).

(** The pauses taken, oldest first. *)
Definition slept (t : list event) : list Z :=
  omap (fun e => match e with ESleep n => Some n | _ => None end) (rev t).

(** The value a form carries for the field [k]: that of its last
    [<input>] whose [name] is [k], an absent [value] counting as the
    empty text.  Inputs without a name, or with an empty one, carry
    nothing. *)
Fixpoint form_value (inputs : list (option string * option string))
    (k : string) : option string :=
  match inputs with
  | [] => None
  | (name, value) :: r =>
      match form_value r k with
      | Some v => Some v
      | None =>
          if (PyStr.truthy_opt name && String.eqb (default "" name) k)%bool
          then Some (default "" value) else None
      end
  end.

(** ** A reader and writer of history files

    A stand-in for [json.dump(h, f, indent=2)] and [json.load(f)] on the
    documents the script writes: an object of objects of records, two
    blanks of indentation per level, the double quote and the backslash
    escaped in string literals.  The reader takes such documents and no
    others. *)

Module Json.

(** The double quote and the backslash. *)
Definition dq : ascii := ascii_of_nat 34.
Definition bs : ascii := ascii_of_nat 92.

Fixpoint escape (s : string) : string :=
  match s with
  | EmptyString => EmptyString
  | String c r =>
      if (Ascii.eqb c dq || Ascii.eqb c bs)%bool
      then String bs (String c (escape r))
      else String c (escape r)
  end.

Definition literal (s : string) : string :=
  String dq (escape s) +:+ String dq EmptyString.

Fixpoint join_with (sep : string) (l : list string) : string :=
  match l with
  | [] => ""
  | [x] => x
  | x :: r => x +:+ sep +:+ join_with sep r
  end.

(** An object whose members are given as a key and the text of its
    value; [pad] is the indentation of the line the object starts on. *)
Definition object (pad : string) (members : list (string * string)) : string :=
  match members with
  | [] => "{}"
  | _ =>
      "{" +:+ PyStr.nl
      +:+ join_with ("," +:+ PyStr.nl)
            (map (fun kv => pad +:+ "  " +:+ literal (fst kv) +:+ ": " +:+ snd kv)
                 members)
      +:+ PyStr.nl +:+ pad +:+ "}"
  end.

Definition dump_record (pad : string) (r : DownloadRecord) : string :=
  object pad [("downloaded_at", literal (downloaded_at r));
              ("url", literal (url r))].

Definition dump_files (pad : string) (m : gmap string DownloadRecord) : string :=
  object pad
    (map (fun kv => (fst kv, dump_record (pad +:+ "  ") (snd kv)))
         (map_to_list m)).

Definition dump_history (h : History) : string :=
  object ""
    (map (fun kv => (fst kv, dump_files "  " (snd kv))) (map_to_list h)).

(** The text cut after each newline. *)
Fixpoint lines_from (s cur : string) : list string :=
  match s with
  | EmptyString =>
      match cur with EmptyString => [] | _ => [PyStr.reverse cur] end
  | String c r =>
      if Ascii.eqb c (ascii_of_nat 10)
      then PyStr.reverse (String c cur) :: lines_from r EmptyString
      else lines_from r (String c cur)
  end.

(** The chunks written: the document, line by line. *)
Definition dump (h : History) : list string :=
  lines_from (dump_history h) EmptyString.

Inductive token :=
| TLBrace | TRBrace | TColon | TComma
| TStr (s : string).

Definition is_space (c : ascii) : bool :=
  (Ascii.eqb c " " || Ascii.eqb c (ascii_of_nat 10)
   || Ascii.eqb c (ascii_of_nat 9) || Ascii.eqb c (ascii_of_nat 13))%bool.

(** The tokens of a text; [lit] holds the string literal being read, if
    any, latest character first, and [esc] tells that a backslash was
    just read in it. *)
Fixpoint lex (s : string) (lit : option string) (esc : bool)
    : option (list token) :=
  match s with
  | EmptyString => match lit with None => Some [] | Some _ => None end
  | String c r =>
      match lit with
      | Some acc =>
          if esc then
            if (Ascii.eqb c dq || Ascii.eqb c bs)%bool
            then lex r (Some (String c acc)) false
            else None
          else if Ascii.eqb c bs then lex r lit true
          else if Ascii.eqb c dq
          then cons (TStr (PyStr.reverse acc)) <$> lex r None false
          else lex r (Some (String c acc)) false
      | None =>
          if is_space c then lex r None false
          else if Ascii.eqb c "{" then cons TLBrace <$> lex r None false
          else if Ascii.eqb c "}" then cons TRBrace <$> lex r None false
          else if Ascii.eqb c ":" then cons TColon <$> lex r None false
          else if Ascii.eqb c "," then cons TComma <$> lex r None false
          else if Ascii.eqb c dq then lex r (Some EmptyString) false
          else None
      end
  end.

Definition parse_record (ts : list token)
    : option (DownloadRecord * list token) :=
  match ts with
  | TLBrace :: TStr k1 :: TColon :: TStr v1 :: TComma
    :: TStr k2 :: TColon :: TStr v2 :: TRBrace :: rest =>
      if (String.eqb k1 "downloaded_at" && String.eqb k2 "url")%bool
      then Some (mkRecord v1 v2, rest)
      else None
  | _ => None
  end.

(** The members of an object after its opening brace, up to and with
    its closing brace; a key given twice keeps its last value. *)
Fixpoint parse_members {V : Type}
    (value : list token -> option (V * list token))
    (fuel : nat) (ts : list token) (acc : gmap string V)
    : option (gmap string V * list token) :=
  match fuel with
  | O => None
  | S fuel =>
      match ts with
      | TStr k :: TColon :: rest =>
          match value rest with
          | Some (v, TComma :: rest') =>
              parse_members value fuel rest' (<[k := v]> acc)
          | Some (v, TRBrace :: rest') => Some (<[k := v]> acc, rest')
          | _ => None
          end
      | _ => None
      end
  end.

Definition parse_object {V : Type}
    (value : list token -> option (V * list token)) (ts : list token)
    : option (gmap string V * list token) :=
  match ts with
  | TLBrace :: TRBrace :: rest => Some (∅, rest)
  | TLBrace :: rest => parse_members value (length rest) rest ∅
  | _ => None
  end.

Definition parse_history (ts : list token) : option History :=
  match parse_object (parse_object parse_record) ts with
  | Some (h, []) => Some h
  | _ => None
  end.

(** Reading in a UTF-8 locale: the byte 255 occurs in no UTF-8 text, so
    a file that holds it cannot be decoded. *)
Definition load (file : string) : json_result :=
  if existsb (Ascii.eqb (ascii_of_nat 255)) (list_ascii_of_string file)
  then JsonRaises
         (UnicodeDecodeError "'utf-8' codec can't decode byte 0xff")
  else match lex file None false ≫= parse_history with
       | Some h => JsonValue h
       | None => JSONDecodeError
       end.

End Json.

Module Sample2.

(** A site that lists and serves [A.TXT] for CBK, with a history file
    written and read as the script does. *)
Definition w_json : World := {|
  env_DOWNLOAD_DIR := None;
  env_USERNAME := Some "user";
  env_PASSWORD := Some "secret";
  session_get := fun _ u => Sample.site "A.TXT" Sample.file_ok u;
  session_post := fun _ _ _ => Sample.ok "Welcome - Logout";
  datetime_now_isoformat := fun t => "T" +:+ pretty (length t);
  soup_find_login_form := fun page =>
    if String.eqb page "login page" then Some Sample.login_form else None;
  soup_anchor_hrefs := String.words;
  urljoin := Sample.sample_urljoin;
  json_load := Json.load;
  json_dump := Json.dump;
  open_error := fun path => Some (FileNotFoundError path)
|}.

Definition w_record : DownloadRecord :=
  mkRecord "2024-11-02T09:30:00" "http://www.kostats.com/WNBA/W.TXT".

(** A scraper whose history holds a record under a key that is not a
    configured sport code. *)
Definition s_with_wnba : Scraper :=
  mkScraper {["WNBA" := {["W.TXT" := w_record]}]} ∅ [].

(** A history file that is not text: it holds the byte 255. *)
Definition s_undecodable : Scraper :=
  mkScraper ∅
    {["downloads/download_history.json" :=
        String (ascii_of_nat 255) EmptyString]} [].

(** The CBK page lists a link that cannot be resolved. *)
Definition w_bad_link : World :=
  Sample.world_of (Sample.site "A.TXT http://[::1/B.TXT" Sample.file_ok).

(** The login form is to be sent to a reference that cannot be
    resolved. *)
Definition w_bad_action : World := {|
  env_DOWNLOAD_DIR := None;
  env_USERNAME := Some "user";
  env_PASSWORD := Some "secret";
  session_get := fun _ u => Sample.site "A.TXT" Sample.file_ok u;
  session_post := fun _ _ _ => Sample.ok "Welcome - Logout";
  datetime_now_isoformat := fun t => "T" +:+ pretty (length t);
  soup_find_login_form := fun page =>
    if String.eqb page "login page"
    then Some (mkForm (Some "//[") []) else None;
  soup_anchor_hrefs := String.words;
  urljoin := Sample.sample_urljoin;
  json_load := Json.load;
  json_dump := Json.dump;
  open_error := fun path => Some (FileNotFoundError path)
|}.

(** No credentials in the environment. *)
Definition w_no_password : World := {|
  env_DOWNLOAD_DIR := None;
  env_USERNAME := Some "user";
  env_PASSWORD := None;
  session_get := fun _ u => Sample.site "A.TXT" Sample.file_ok u;
  session_post := fun _ _ _ => Sample.ok "Welcome - Logout";
  datetime_now_isoformat := fun t => "T" +:+ pretty (length t);
  soup_find_login_form := fun page =>
    if String.eqb page "login page" then Some Sample.login_form else None;
  soup_anchor_hrefs := String.words;
  urljoin := Sample.sample_urljoin;
  json_load := Sample.sample_json_load;
  json_dump := Sample.sample_json_dump;
  open_error := fun path => Some (FileNotFoundError path)
|}.

(** The login page carries no form the code recognises. *)
Definition w_no_form : World :=
  Sample.world_of (fun u => if String.eqb u LOGIN_URL then Sample.ok "maintenance"
                            else Sample.site "A.TXT" Sample.file_ok u).

(** The download of [A.TXT] cannot be reached. *)
Definition w_file_down : World :=
  Sample.world_of (Sample.site "A.TXT" (fun _ => Sample.refused)).

(** The CFB page answers 500; the CBK page lists one file. *)
Definition w_cfb_500 : World :=
  Sample.world_of (fun u =>
    if String.eqb u "http://www.kostats.com/CFB_Subscription/CFB.HTM"
    then Ret (mkResponse 500 "" "")
    else Sample.site "A.TXT" Sample.file_ok u).

End Sample2.

(** Unfolds the monad and its primitive actions, leaving the oracles of
    the world in place. *)
Ltac run_monad :=
  cbv [bind ret raise lift emit logger time_sleep get_history set_history
       fs_open_w fs_write open_download http_get http_post datetime_now read_history_file];
  cbn [download_history disk trace].

(** ** Basic facts *)

Section Facts.

Variable w : World.

Lemma fetched_app t1 t2 : fetched (t1 ++ t2) = fetched t2 ++ fetched t1.
Proof. unfold fetched. by rewrite rev_app_distr, omap_app. Qed.

Lemma opened_app t1 t2 : opened (t1 ++ t2) = opened t2 ++ opened t1.
Proof. unfold opened. by rewrite rev_app_distr, omap_app. Qed.

Lemma fetched_cons e t :
  fetched (e :: t) =
  fetched t ++ match e with EGet u => [u] | _ => [] end.
Proof.
  change (e :: t) with ([e] ++ t). rewrite fetched_app.
  f_equal. by destruct e.
Qed.

Lemma opened_cons e t :
  opened (e :: t) =
  opened t ++ match e with EOpenW p => [p] | _ => [] end.
Proof.
  change (e :: t) with ([e] ++ t). rewrite opened_app.
  f_equal. by destruct e.
Qed.

Lemma already_downloaded_true h c n :
  already_downloaded h c n = true ↔ n ∈ names_of h c.
Proof.
  unfold already_downloaded, names_of.
  destruct (h !! c) as [files|]; simpl.
  - rewrite bool_decide_eq_true. by rewrite elem_of_dom.
  - split; [done | set_solver].
Qed.

Lemma already_downloaded_false h c n :
  already_downloaded h c n = false ↔ n ∉ names_of h c.
Proof.
  rewrite <- already_downloaded_true. by destruct (already_downloaded h c n).
Qed.

Lemma already_downloaded_record h c n :
  already_downloaded h c n = true ↔ is_Some (record_of h c n).
Proof.
  unfold already_downloaded, record_of.
  destruct (h !! c) as [files|]; simpl.
  - by rewrite bool_decide_eq_true.
  - split; [done | by intros [? ?]].
Qed.

Lemma names_of_record_download h c n r :
  names_of (record_download h c n r) c = {[n]} ∪ names_of h c.
Proof.
  unfold names_of, record_download.
  rewrite lookup_insert_eq. simpl. by rewrite dom_insert_L.
Qed.

Lemma lookup_record_download_ne h c c' n r :
  c ≠ c' → record_download h c n r !! c' = h !! c'.
Proof. intros. unfold record_download. by rewrite lookup_insert_ne. Qed.

Lemma record_of_record_download_eq h c n r :
  record_of (record_download h c n r) c n = Some r.
Proof.
  unfold record_of, record_download.
  rewrite lookup_insert_eq. simpl. by rewrite lookup_insert_eq.
Qed.

Lemma record_of_record_download_ne h c n r c' n' :
  (c, n) ≠ (c', n') →
  record_of (record_download h c n r) c' n' = record_of h c' n'.
Proof.
  intros Hne. unfold record_of, record_download.
  destruct (decide (c = c')) as [<-|Hc].
  - rewrite lookup_insert_eq. simpl.
    rewrite lookup_insert_ne by congruence.
    by destruct (h !! c).
  - by rewrite lookup_insert_ne.
Qed.

(** The two assignments of [download_file] amount to [record_download]. *)
Lemma history_update_eq (h : History) c n r :
  let h' := match h !! c with Some _ => h | None => <[c := ∅]> h end in
  <[c := <[n := r]> (default ∅ (h' !! c))]> h' = record_download h c n r.
Proof.
  unfold record_download. destruct (h !! c) as [files|] eqn:E; simpl.
  - by rewrite E.
  - rewrite lookup_insert_eq. simpl. by rewrite insert_insert_eq.
Qed.

End Facts.

(** ** The last segment of a path holds no slash *)

Lemma rev_onto_chars s : ∀ acc,
  list_ascii_of_string (PyStr.rev_onto s acc)
  = rev (list_ascii_of_string s) ++ list_ascii_of_string acc.
Proof.
  induction s as [|a s IH]; intros acc; cbn [PyStr.rev_onto list_ascii_of_string rev].
  - done.
  - rewrite IH. cbn [list_ascii_of_string]. by rewrite <- app_assoc.
Qed.

Lemma basename_from_no_slash s : ∀ cur,
  "/"%char ∉ list_ascii_of_string cur →
  "/"%char ∉ list_ascii_of_string (PyStr.basename_from s cur).
Proof.
  induction s as [|a s IH]; intros cur Hcur; cbn [PyStr.basename_from].
  - unfold PyStr.reverse. rewrite rev_onto_chars. cbn [list_ascii_of_string].
    rewrite app_nil_r. intros H. apply Hcur.
    apply list_elem_of_In, in_rev. by apply list_elem_of_In.
  - destruct (Ascii.eqb_spec a "/"%char) as [->|Hne].
    + apply IH. cbn. apply not_elem_of_nil.
    + apply IH. cbn [list_ascii_of_string]. rewrite not_elem_of_cons. by split.
Qed.

Lemma basename_no_leading_slash p :
  PyStr.startswith "/" (PyStr.basename p) = false.
Proof.
  pose proof (basename_from_no_slash p "" (not_elem_of_nil _)) as H.
  fold (PyStr.basename p) in H. destruct (PyStr.basename p) as [|a x]; [done|].
  unfold PyStr.startswith. cbn [String.prefix].
  destruct (ascii_dec "/" a) as [<-|Hne]; [|done].
  exfalso. apply H. cbn [list_ascii_of_string]. apply elem_of_cons. by left.
Qed.

(** ** One download attempt, case by case *)

Section Download.

Variable w : World.

Lemma download_file_skip c n u s :
  already_downloaded (download_history s) c n = true →
  download_file w c n u s =
    (mkScraper (download_history s) (disk s)
       (ELog INFO ("Skipping " +:+ n +:+ " - already downloaded") :: trace s),
     Ret false).
Proof.
  intros H. unfold download_file. run_monad. by rewrite H.
Qed.

Lemma download_file_raise c n u s e :
  already_downloaded (download_history s) c n = false →
  session_get w (trace_downloading n (trace s)) u = Raise e →
  download_file w c n u s =
    (mkScraper (download_history s) (disk s)
       (EGet u :: trace_downloading n (trace s)),
     Raise e).
Proof.
  intros H Hg. unfold download_file. run_monad. rewrite H.
  unfold trace_downloading in Hg. by rewrite Hg.
Qed.

Lemma download_file_status c n u s r :
  already_downloaded (download_history s) c n = false →
  session_get w (trace_downloading n (trace s)) u = Ret r →
  status_code r ≠ 200%Z →
  download_file w c n u s =
    (mkScraper (download_history s) (disk s)
       (ELog ERROR ("Failed to download " +:+ u +:+ ", status code: "
                    +:+ pretty (status_code r))
        :: EGet u :: trace_downloading n (trace s)),
     Ret false).
Proof.
  intros H Hg Hst. unfold download_file. run_monad. rewrite H.
  unfold trace_downloading in Hg. rewrite Hg.
  apply Z.eqb_neq in Hst. by rewrite Hst.
Qed.

Lemma download_file_open_refused c n u s r e :
  already_downloaded (download_history s) c n = false →
  session_get w (trace_downloading n (trace s)) u = Ret r →
  status_code r = 200%Z →
  open_download_error w c n = Some e →
  download_file w c n u s =
    (mkScraper (download_history s) (disk s)
       (EGet u :: trace_downloading n (trace s)),
     Raise e).
Proof.
  intros H Hg Hst Hdir. unfold download_file. run_monad. rewrite H.
  unfold trace_downloading in Hg. rewrite Hg.
  apply Z.eqb_eq in Hst. rewrite Hst. cbn [negb]. by rewrite Hdir.
Qed.

Lemma contains_slash_chars s :
  "/"%char ∉ list_ascii_of_string s → PyStr.contains "/" s = false.
Proof.
  induction s as [|a s IH]; [done|].
  cbn [list_ascii_of_string]. rewrite not_elem_of_cons. intros [Ha Hs].
  cbn [PyStr.contains String.prefix].
  destruct (ascii_dec "/" a) as [<-|_]; [done|]. by apply IH.
Qed.

(** A name the listing builds, under a configured sport code, lands in a
    directory that [__init__] has created. *)
Lemma listed_name_opens c u :
  c ∈ dict_keys SPORT_PAGES → open_download_error w c (PyStr.basename u) = None.
Proof.
  intros Hc. unfold open_download_error.
  rewrite (bool_decide_eq_true_2 _ Hc), contains_slash_chars; [done|].
  apply basename_from_no_slash. cbn. apply not_elem_of_nil.
Qed.

Lemma download_file_ok c n u s r :
  already_downloaded (download_history s) c n = false →
  session_get w (trace_downloading n (trace s)) u = Ret r →
  status_code r = 200%Z →
  open_download_error w c n = None →
  download_file w c n u s =
    (mkScraper
       (record_download (download_history s) c n
          (mkRecord (datetime_now_isoformat w (trace_written w c n u r (trace s))) u))
       (<[file_path_of w c n := content r]> (disk s))
       (ELog INFO ("Successfully downloaded " +:+ n)
        :: trace_written w c n u r (trace s)),
     Ret true).
Proof.
  intros H Hg Hst Hdir. unfold download_file. run_monad. rewrite H.
  unfold trace_downloading in Hg. rewrite Hg.
  apply Z.eqb_eq in Hst. rewrite Hst. cbn [negb]. rewrite Hdir.
  cbn [download_history disk trace].
  rewrite history_update_eq.
  rewrite lookup_insert_eq. cbn [default String.append].
  rewrite insert_insert_eq. reflexivity.
Qed.

End Download.

(** ** The download loop *)

Section Loop.

Variable w : World.

Lemma names_of_record h c n : n ∈ names_of h c ↔ is_Some (record_of h c n).
Proof.
  rewrite <- already_downloaded_true. apply already_downloaded_record.
Qed.

Lemma download_file_cases c n u s :
  download_case w c n u s (download_file w c n u s).
Proof.
  destruct (already_downloaded (download_history s) c n) eqn:Ha.
  - rewrite (download_file_skip w c n u s Ha).
    apply case_skip. by apply already_downloaded_true.
  - assert (n ∉ names_of (download_history s) c) as Hn
      by by apply already_downloaded_false.
    destruct (session_get w (trace_downloading n (trace s)) u) as [r|e] eqn:Hg.
    + destruct (decide (status_code r = 200%Z)) as [Hst|Hst].
      * destruct (open_download_error w c n) as [e|] eqn:Hdir.
        -- rewrite (download_file_open_refused w c n u s r e Ha Hg Hst Hdir).
           by apply (case_open_refused w c n u s r e).
        -- rewrite (download_file_ok w c n u s r Ha Hg Hst Hdir).
           by apply case_ok.
      * rewrite (download_file_status w c n u s r Ha Hg Hst). by apply case_status.
    + rewrite (download_file_raise w c n u s e Ha Hg). by apply case_raise.
Qed.

Lemma for_links_cons c n u rest k s :
  for_links w c ((n, u) :: rest) k s =
  match download_file w c n u s with
  | (s1, Ret got) =>
      for_links w c rest (if got then (k + 1)%Z else k)
        (mkScraper (download_history s1) (disk s1) (ESleep 1 :: trace s1))
  | (s1, Raise e) => (s1, Raise e)
  end.
Proof.
  cbn [for_links]. unfold bind at 1.
  destruct (download_file w c n u s) as [s1 [got|e]]; [|done].
  by run_monad.
Qed.

Lemma effects_quiet c B s ev :
  fetched ev = [] → opened ev = [] →
  effects w c B s (mkScraper (download_history s) (disk s) (ev ++ trace s)) ev.
Proof.
  intros Hf Ho. split; cbn [download_history disk trace]; try done.
  - auto.
  - rewrite Ho. by intros p ?%elem_of_nil.
  - rewrite Hf. by intros p ?%elem_of_nil.
Qed.

Lemma effects_names_mono c B s s' ev n :
  effects w c B s s' ev →
  n ∈ names_of (download_history s) c → n ∈ names_of (download_history s') c.
Proof.
  intros E. rewrite !names_of_record. intros [r Hr].
  exists r. by apply (eff_keep E).
Qed.

Lemma effects_trans c B1 B2 s s1 s2 ev1 ev2 :
  effects w c B1 s s1 ev1 → effects w c B2 s1 s2 ev2 →
  effects w c (B1 ++ B2) s s2 (ev2 ++ ev1).
Proof.
  intros E1 E2. split.
  - rewrite (eff_trace E2), (eff_trace E1).
    by rewrite app_assoc.
  - intros c' Hc. rewrite (eff_frame E2 c' Hc).
    by apply (eff_frame E1).
  - intros c' n' r Hr. apply (eff_keep E2).
    by apply (eff_keep E1).
  - intros n' Hn. rewrite map_app, elem_of_app.
    destruct (eff_names E2 n' Hn) as [Hn1|?]; [|by auto].
    destruct (eff_names E1 n' Hn1); auto.
  - intros p. rewrite opened_app, not_elem_of_app. intros [Hp1 Hp2].
    rewrite (eff_disk E2 p Hp2).
    by apply (eff_disk E1).
  - intros p. rewrite opened_app, elem_of_app. intros [Hp|Hp].
    + destruct (eff_opened E1 p Hp) as (n & u & Hin & -> & Hn).
      exists n, u. rewrite elem_of_app. auto.
    + destruct (eff_opened E2 p Hp) as (n & u & Hin & -> & Hn).
      exists n, u. rewrite elem_of_app. split_and!; auto.
      intros Hn'. apply Hn. by eapply effects_names_mono.
  - intros u. rewrite fetched_app, elem_of_app. intros [Hu|Hu].
    + destruct (eff_fetched E1 u Hu) as (n & Hin & Hn).
      exists n. rewrite elem_of_app. auto.
    + destruct (eff_fetched E2 u Hu) as (n & Hin & Hn).
      exists n. rewrite elem_of_app. split; auto.
      intros Hn'. apply Hn. by eapply effects_names_mono.
Qed.

Lemma download_file_effects c n u s s' res :
  download_file w c n u s = (s', res) →
  ∃ ev, effects w c [(n, u)] s s' ev.
Proof.
  intros Hd. pose proof (download_file_cases c n u s) as Hc.
  rewrite Hd in Hc.
  inversion Hc as [Hn | e Hn Hg | r Hn Hg Hst | r e Hn Hg Hst Hdir
                   | r Hn Hg Hst Hdir]; subst; clear Hc.
  - eexists [_]. by apply (effects_quiet c _ s [_]).
  - exists [EGet u; ELog INFO ("Downloading " +:+ n)].
    split; cbn [download_history disk trace]; try done; auto.
    + by intros p ?%elem_of_nil.
    + intros u' ->%list_elem_of_singleton. exists n.
      by rewrite list_elem_of_singleton.
  - eexists [_; EGet u; ELog INFO ("Downloading " +:+ n)].
    split; cbn [download_history disk trace]; try done; auto.
    + by intros p ?%elem_of_nil.
    + intros u' ->%list_elem_of_singleton. exists n.
      by rewrite list_elem_of_singleton.
  - exists [EGet u; ELog INFO ("Downloading " +:+ n)].
    split; cbn [download_history disk trace]; try done; auto.
    + by intros p ?%elem_of_nil.
    + intros u' ->%list_elem_of_singleton. exists n.
      by rewrite list_elem_of_singleton.
  - eexists [_; EWrite _ _; EOpenW (file_path_of w c n); EGet u;
             ELog INFO ("Downloading " +:+ n)].
    split; cbn [download_history disk trace]; try done.
    + intros c' Hc'. by apply lookup_record_download_ne.
    + intros c' n' r' Hr. rewrite record_of_record_download_ne; [done|].
      intros [= <- <-]. apply Hn. apply names_of_record. by exists r'.
    + intros n'. rewrite names_of_record_download.
      rewrite elem_of_union, elem_of_singleton. intros [->|?]; [|by auto].
      right. cbn. by rewrite list_elem_of_singleton.
    + intros p Hp. apply lookup_insert_ne. intros <-. apply Hp.
      by apply list_elem_of_singleton.
    + intros p ->%list_elem_of_singleton. exists n, u.
      by rewrite list_elem_of_singleton.
    + intros u' ->%list_elem_of_singleton. exists n.
      by rewrite list_elem_of_singleton.
Qed.

Lemma effects_sleep c B s s' ev :
  effects w c B s s' ev →
  effects w c B s
    (mkScraper (download_history s') (disk s') (ESleep 1 :: trace s'))
    (ESleep 1 :: ev).
Proof.
  intros E. split; cbn [download_history disk trace].
  - by rewrite (eff_trace E).
  - apply (eff_frame E).
  - apply (eff_keep E).
  - apply (eff_names E).
  - intros p. rewrite opened_cons, app_nil_r. apply (eff_disk E).
  - intros p. rewrite opened_cons, app_nil_r. apply (eff_opened E).
  - intros u. rewrite fetched_cons, app_nil_r. apply (eff_fetched E).
Qed.

Lemma for_links_effects c B : ∀ k s s' res,
  for_links w c B k s = (s', res) →
  ∃ ev, effects w c B s s' ev.
Proof.
  induction B as [|[n u] rest IH]; intros k s s' res Hl.
  - cbn in Hl. injection Hl as <- <-. exists [].
    destruct s as [h d t].
    by apply (effects_quiet c [] (mkScraper h d t) []).
  - rewrite for_links_cons in Hl.
    destruct (download_file w c n u s) as [s1 [got|e]] eqn:Hd.
    + destruct (download_file_effects _ _ _ _ _ _ Hd) as [ev1 E1].
      apply effects_sleep in E1.
      destruct (IH _ _ _ _ Hl) as [ev2 E2].
      exists (ev2 ++ ESleep 1 :: ev1).
      apply (effects_trans c [(n, u)] rest _ _ _ _ _ E1 E2).
    + injection Hl as <- <-.
      destruct (download_file_effects _ _ _ _ _ _ Hd) as [ev1 E1].
      exists ev1. split; try apply E1.
      * intros n' Hn. destruct (eff_names E1 n' Hn) as [?|Hin]; auto.
        right. cbn in Hin |- *. apply list_elem_of_singleton in Hin as ->.
        apply elem_of_cons. by left.
      * intros p Hp.
        destruct (eff_opened E1 p Hp) as (n0 & u0 & Hin & ? & ?).
        exists n0, u0. split_and!; auto.
        apply list_elem_of_singleton in Hin as ->. apply elem_of_cons. by left.
      * intros u' Hu.
        destruct (eff_fetched E1 u' Hu) as (n0 & Hin & ?).
        exists n0. split; auto.
        apply list_elem_of_singleton in Hin as [= -> ->]. apply elem_of_cons. by left.
Qed.

End Loop.

(** ** Listing a sport page *)

Section Listing.

Variable w : World.

Lemma sport_url_truthy c sport_url :
  dict_get SPORT_PAGES c = Some sport_url → PyStr.truthy sport_url = true.
Proof.
  unfold SPORT_PAGES. cbn [dict_get].
  repeat (destruct (String.eqb _ c); [by intros [= <-]|]).
  discriminate.
Qed.

Lemma sport_code_configured c :
  c ∈ dict_keys SPORT_PAGES ↔ is_Some (dict_get SPORT_PAGES c).
Proof.
  unfold dict_keys. generalize SPORT_PAGES as d.
  induction d as [|[k v] d IH]; cbn [map fst dict_get].
  - split; [by intros ?%elem_of_nil | by intros [? ?]].
  - rewrite elem_of_cons, IH. destruct (String.eqb_spec k c) as [->|Hne].
    + split; [by eexists | by left].
    + split; [intros [->|?]; [done|done] | by right].
Qed.

Lemma get_file_links_cases c s : listing_case w c s (get_file_links w c s).
Proof.
  unfold get_file_links.
  destruct (dict_get SPORT_PAGES c) as [sport_url|] eqn:Hu.
  - cbn [PyStr.truthy_opt default].
    rewrite (sport_url_truthy c sport_url Hu). cbn [negb]. unfold id.
    run_monad. fold (trace_listing c (trace s)).
    destruct (session_get w (trace_listing c (trace s)) sport_url)
      as [r|e] eqn:Hg.
    + destruct (decide (status_code r = 200%Z)) as [Hst|Hst].
      * pose proof Hst as Hb. apply Z.eqb_eq in Hb. rewrite Hb.
        cbn [negb download_history disk trace].
        fold (links_of_page w sport_url r).
        destruct (links_of_page w sport_url r) as [links|e] eqn:Hlinks.
        -- by apply (listing_ok w c s sport_url r links).
        -- by apply (listing_bad_link w c s sport_url r e).
      * pose proof Hst as Hb. apply Z.eqb_neq in Hb. rewrite Hb.
        cbn [negb download_history disk trace].
        by apply (listing_status w c s sport_url r).
    + by apply (listing_raise w c s sport_url e).
  - cbn [PyStr.truthy_opt negb]. run_monad. by apply listing_unknown.
Qed.

(** Listing touches neither the history nor the disk, opens no file and
    requests at most the page of the sport. *)
Lemma get_file_links_state c s s1 res :
  get_file_links w c s = (s1, res) →
  ∃ ev, s1 = mkScraper (download_history s) (disk s) (ev ++ trace s)
        ∧ opened ev = []
        ∧ ∀ u, u ∈ fetched ev → dict_get SPORT_PAGES c = Some u.
Proof.
  intros Hl. pose proof (get_file_links_cases c s) as Hc. rewrite Hl in Hc.
  inversion Hc as [Hu | u e Hu Hg | u r Hu Hg Hst | u r e Hu Hg Hst Hlinks
                   | u r links Hu Hg Hst Hlinks];
    subst; clear Hc.
  - eexists [_]. split_and!; try done. by intros u ?%elem_of_nil.
  - exists [EGet u; ELog INFO ("Getting file links for " +:+ c)].
    split_and!; try done. by intros u' ->%list_elem_of_singleton.
  - eexists [_; EGet u; ELog INFO ("Getting file links for " +:+ c)].
    split_and!; try done. by intros u' ->%list_elem_of_singleton.
  - exists [EGet u; ELog INFO ("Getting file links for " +:+ c)].
    split_and!; try done. by intros u' ->%list_elem_of_singleton.
  - eexists [_; EGet u; ELog INFO ("Getting file links for " +:+ c)].
    split_and!; try done. by intros u' ->%list_elem_of_singleton.
Qed.

(** The pairs the loop over the links builds, when no link makes it
    raise. *)
Lemma collect_links_names sport_url hrefs : ∀ links,
  collect_links w sport_url hrefs = Ret links →
  ∀ n u, (n, u) ∈ links →
    n = PyStr.basename u
    ∧ ∃ href, href ∈ hrefs ∧ urljoin w sport_url href = Ret u.
Proof.
  induction hrefs as [|href rest IH]; intros links; cbn [collect_links].
  - intros [= <-] n u Hin. by apply elem_of_nil in Hin.
  - destruct (urljoin w sport_url href) as [file_url|e] eqn:Hj; [|done].
    destruct (collect_links w sport_url rest) as [l|e]; [|done].
    intros [= <-] n u. rewrite elem_of_cons. intros [[= -> ->]|Hin].
    + split; [done|]. exists href. split; [apply elem_of_cons; by left|done].
    + destruct (IH l eq_refl n u Hin) as (Hn & href' & Hin' & Hj').
      split; [done|]. exists href'. split; [apply elem_of_cons; by right|done].
Qed.

(** Every listed item is named after the last path segment of its URL,
    which is the page URL joined with the link. *)
Lemma get_file_links_names c s s1 B :
  get_file_links w c s = (s1, Ret B) →
  ∀ n u, (n, u) ∈ B →
    n = PyStr.basename u
    ∧ ∃ sport_url href, dict_get SPORT_PAGES c = Some sport_url
        ∧ PyStr.search_dot_txt href = true
        ∧ urljoin w sport_url href = Ret u.
Proof.
  intros Hl. pose proof (get_file_links_cases c s) as Hc. rewrite Hl in Hc.
  inversion Hc as [Hu | | u r Hu Hg Hst | | u r links Hu Hg Hst Hlinks];
    subst; clear Hc.
  - by intros n u ?%elem_of_nil.
  - by intros n u' ?%elem_of_nil.
  - intros n u' Hin. unfold links_of_page in Hlinks.
    destruct (collect_links_names _ _ _ Hlinks n u' Hin)
      as (Hn & href & Hhref & Hj).
    split; [done|]. exists u, href. split_and!; try done.
    apply list_elem_of_In, filter_In in Hhref. tauto.
Qed.

Lemma process_sport_unfold c s :
  process_sport w c s =
  match get_file_links w c s with
  | (s1, Ret B) =>
      match for_links w c B 0 s1 with
      | (s2, Ret k) =>
          (mkScraper (download_history s2) (disk s2)
             (ELog INFO ("Downloaded " +:+ pretty k +:+ " new files for " +:+ c)
              :: trace s2),
           Ret k)
      | (s2, Raise e) => (s2, Raise e)
      end
  | (s1, Raise e) => (s1, Raise e)
  end.
Proof.
  unfold process_sport. unfold bind at 1.
  destruct (get_file_links w c s) as [s1 [B|e]]; [|done].
  unfold bind at 1.
  destruct (for_links w c B 0 s1) as [s2 [k|e]]; [|done].
  by run_monad.
Qed.

End Listing.

(** ** Saving the history *)

Lemma append_empty_r (s : string) : s +:+ "" = s.
Proof.
  induction s as [|a s IH]; [done|].
  change (String a (s +:+ "") = String a s). by rewrite IH.
Qed.

Lemma append_assoc (s1 s2 s3 : string) : (s1 +:+ s2) +:+ s3 = s1 +:+ s2 +:+ s3.
Proof.
  induction s1 as [|a s1 IH]; [done|].
  change (String a ((s1 +:+ s2) +:+ s3) = String a (s1 +:+ s2 +:+ s3)).
  by rewrite IH.
Qed.

Lemma written_text_app l1 l2 :
  written_text (l1 ++ l2) = written_text l1 +:+ written_text l2.
Proof.
  induction l1 as [|x l1 IH]; simpl; [done|]. by rewrite IH, append_assoc.
Qed.

Section Save.

Variable w : World.

Lemma do_steps_writes p chunks : ∀ s x,
  disk s !! p = Some x →
  do_steps (map (fs_write p) chunks) s =
    (mkScraper (download_history s)
       (<[p := x +:+ written_text chunks]> (disk s))
       (rev (map (EWrite p) chunks) ++ trace s),
     Ret tt).
Proof.
  induction chunks as [|y chunks IH]; intros s x Hx.
  - cbn. rewrite append_empty_r, insert_id by done. by destruct s.
  - cbn [map do_steps]. unfold bind at 1. unfold fs_write at 1.
    rewrite (IH _ (x +:+ y)).
    + cbn [download_history disk trace]. rewrite Hx. cbn [default].
      unfold id. rewrite insert_insert_eq, append_assoc.
      cbn [written_text rev]. by rewrite <- app_assoc.
    + cbn [disk]. rewrite Hx. cbn [default]. apply lookup_insert_eq.
Qed.

Lemma save_download_history_state s :
  _save_download_history w s =
    (mkScraper (download_history s)
       (<[HISTORY_FILE w := written_text (json_dump w (download_history s))]>
          (disk s))
       (rev (map (EWrite (HISTORY_FILE w)) (json_dump w (download_history s)))
        ++ EOpenW (HISTORY_FILE w) :: trace s),
     Ret tt).
Proof.
  unfold _save_download_history, save_steps. unfold bind at 1, get_history.
  cbn [do_steps]. unfold bind, fs_open_w.
  rewrite (do_steps_writes _ _ _ "").
  - cbn [download_history disk trace String.append].
    by rewrite insert_insert_eq.
  - cbn [disk]. apply lookup_insert_eq.
Qed.

End Save.

(** ** Logging in, one sport, all sports *)

Section Run.

Variable w : World.

(** Logging in requests the login page, posts at most one form and
    touches neither the history nor the disk. *)
Lemma login_state s s1 res :
  login w s = (s1, res) →
  ∃ ev, s1 = mkScraper (download_history s) (disk s) (ev ++ trace s)
        ∧ fetched ev = [LOGIN_URL] ∧ opened ev = [].
Proof.
  unfold login. run_monad.
  destruct (session_get w _ LOGIN_URL) as [page|e].
  - destruct (soup_find_login_form w (text page)) as [form|].
    + destruct (form_target w form) as [action|e].
      * match goal with
        | |- context [session_post w ?t ?a ?d] =>
            destruct (session_post w t a d) as [resp|e]
        end.
        -- destruct (_ || _)%bool; intros [= <- <-];
             (eexists [_; EPost _ _; EGet LOGIN_URL; _]; by split_and!).
        -- intros [= <- <-]. eexists [EPost _ _; EGet LOGIN_URL; _].
           by split_and!.
      * intros [= <- <-]. eexists [EGet LOGIN_URL; _]. by split_and!.
    + intros [= <- <-]. eexists [_; EGet LOGIN_URL; _]. by split_and!.
  - intros [= <- <-]. eexists [EGet LOGIN_URL; _]. by split_and!.
Qed.

Lemma for_sports_cons c rest total s :
  for_sports w (c :: rest) total s =
  match process_sport w c s with
  | (s1, Ret n) => for_sports w rest (total + n)%Z s1
  | (s1, Raise e) => (s1, Raise e)
  end.
Proof.
  cbn [for_sports]. unfold bind.
  by destruct (process_sport w c s) as [s1 [n|e]].
Qed.

Lemma run_unfold s :
  run w s =
  match login w s with
  | (s1, Ret true) =>
      match for_sports w (dict_keys SPORT_PAGES) 0 s1 with
      | (s2, Ret total) =>
          (mkScraper (download_history s2)
             (<[HISTORY_FILE w := written_text (json_dump w (download_history s2))]>
                (disk s2))
             (ELog INFO ("Scraper completed. Downloaded " +:+ pretty total
                         +:+ " new files in total.")
              :: rev (map (EWrite (HISTORY_FILE w))
                          (json_dump w (download_history s2)))
              ++ EOpenW (HISTORY_FILE w) :: trace s2),
           Ret tt)
      | (s2, Raise e) => (s2, Raise e)
      end
  | (s1, Ret false) =>
      (mkScraper (download_history s1) (disk s1)
         (ELog ERROR "Login failed, aborting" :: trace s1),
       Ret tt)
  | (s1, Raise e) => (s1, Raise e)
  end.
Proof.
  unfold run. unfold bind at 1.
  destruct (login w s) as [s1 [[|]|e]]; [|by run_monad|done].
  cbn [negb]. unfold bind at 1.
  destruct (for_sports w (dict_keys SPORT_PAGES) 0 s1) as [s2 [total|e]]; [|done].
  unfold bind at 1. rewrite save_download_history_state.
  by run_monad.
Qed.

Lemma sports_effects_nil s : sports_effects w [] s s [].
Proof. split; try done. by intros p ?%elem_of_nil. Qed.

Lemma sports_effects_log codes s s' ev lv msg :
  sports_effects w codes s s' ev →
  sports_effects w codes s
    (mkScraper (download_history s') (disk s') (ELog lv msg :: trace s'))
    (ELog lv msg :: ev).
Proof.
  intros E. split; cbn [download_history disk trace].
  - by rewrite (se_trace E).
  - apply (se_frame E).
  - apply (se_keep E).
  - intros p. rewrite opened_cons, app_nil_r. apply (se_disk E).
  - intros p. rewrite opened_cons, app_nil_r. apply (se_opened E).
Qed.

Lemma sports_effects_of_links c B s ev0 s2 ev :
  opened ev0 = [] →
  effects w c B (mkScraper (download_history s) (disk s) (ev0 ++ trace s)) s2 ev →
  sports_effects w [c] s s2 (ev ++ ev0).
Proof.
  intros Ho E. split.
  - rewrite (eff_trace E). cbn [trace]. by rewrite app_assoc.
  - intros c' Hc. rewrite (eff_frame E); [done|].
    intros ->. apply Hc. by apply list_elem_of_singleton.
  - apply (eff_keep E).
  - intros p. rewrite opened_app, Ho. cbn [app].
    apply (eff_disk E).
  - intros p. rewrite opened_app, Ho. cbn [app]. intros Hp.
    destruct (eff_opened E p Hp) as (n & u & _ & -> & Hn).
    exists c, n. split_and!; try done. by apply list_elem_of_singleton.
Qed.

Lemma process_sport_effects c s s' res :
  process_sport w c s = (s', res) →
  ∃ ev, sports_effects w [c] s s' ev.
Proof.
  rewrite process_sport_unfold.
  destruct (get_file_links w c s) as [s1 [B|e]] eqn:Hl.
  - destruct (get_file_links_state w _ _ _ _ Hl) as (ev0 & -> & Ho & _).
    destruct (for_links w c B 0 _) as [s2 [k|e]] eqn:Hf;
      destruct (for_links_effects w _ _ _ _ _ _ Hf) as [ev E];
      intros [= <- <-].
    + eexists. apply sports_effects_log.
      by apply (sports_effects_of_links c B s ev0 s2 ev).
    + eexists. by apply (sports_effects_of_links c B s ev0 s2 ev).
  - destruct (get_file_links_state w _ _ _ _ Hl) as (ev0 & -> & Ho & _).
    intros [= <- <-]. exists ev0. split; cbn [download_history disk trace];
      try done.
    rewrite Ho. by intros p ?%elem_of_nil.
Qed.

Lemma sports_effects_names_mono codes s s' ev c n :
  sports_effects w codes s s' ev →
  n ∈ names_of (download_history s) c → n ∈ names_of (download_history s') c.
Proof.
  intros E. rewrite !names_of_record. intros [r Hr].
  exists r. by apply (se_keep E).
Qed.

Lemma sports_effects_trans codes1 codes2 s s1 s2 ev1 ev2 :
  sports_effects w codes1 s s1 ev1 → sports_effects w codes2 s1 s2 ev2 →
  sports_effects w (codes1 ++ codes2) s s2 (ev2 ++ ev1).
Proof.
  intros E1 E2. split.
  - rewrite (se_trace E2), (se_trace E1). by rewrite app_assoc.
  - intros c'. rewrite not_elem_of_app. intros [H1 H2].
    rewrite (se_frame E2 c' H2). by apply (se_frame E1).
  - intros c' n' r Hr. apply (se_keep E2). by apply (se_keep E1).
  - intros p. rewrite opened_app, not_elem_of_app. intros [Hp1 Hp2].
    rewrite (se_disk E2 p Hp2). by apply (se_disk E1).
  - intros p. rewrite opened_app, elem_of_app. intros [Hp|Hp].
    + destruct (se_opened E1 p Hp) as (c & n & Hin & -> & Hn).
      exists c, n. rewrite elem_of_app. auto.
    + destruct (se_opened E2 p Hp) as (c & n & Hin & -> & Hn).
      exists c, n. rewrite elem_of_app. split_and!; auto.
      intros Hn'. apply Hn. by eapply sports_effects_names_mono.
Qed.

Lemma for_sports_effects codes : ∀ total s s' res,
  for_sports w codes total s = (s', res) →
  ∃ ev, sports_effects w codes s s' ev.
Proof.
  induction codes as [|c rest IH]; intros total s s' res Hs.
  - cbn in Hs. injection Hs as <- <-. exists []. apply sports_effects_nil.
  - rewrite for_sports_cons in Hs.
    destruct (process_sport w c s) as [s1 [n|e]] eqn:Hp;
      destruct (process_sport_effects _ _ _ _ Hp) as [ev1 E1].
    + destruct (IH _ _ _ _ Hs) as [ev2 E2]. exists (ev2 ++ ev1).
      apply (sports_effects_trans [c] rest _ _ _ _ _ E1 E2).
    + injection Hs as <- <-. exists (([] : list event) ++ ev1).
      apply (sports_effects_trans [c] rest s s1 s1 ev1 []); [done|].
      split; try done. by intros p ?%elem_of_nil.
Qed.

End Run.

(** ** The history store *)

Lemma opened_writes p l : opened (map (EWrite p) l) = [].
Proof.
  induction l as [|x l IH]; [done|].
  cbn [map]. by rewrite opened_cons, IH.
Qed.

(** What loading the history does, case by case: the file is absent;
    it holds a history; [json.load] rejects it with [JSONDecodeError],
    the one exception the method catches; [json.load] raises anything
    else, which the method lets through. *)
Lemma load_history_cases (w : World) (s : Scraper) :
  (disk s !! HISTORY_FILE w = None →
     _load_download_history w s = (s, Ret ∅))
  ∧ (∀ txt h, disk s !! HISTORY_FILE w = Some txt →
       json_load w txt = JsonValue h →
       _load_download_history w s = (s, Ret h))
  ∧ (∀ txt, disk s !! HISTORY_FILE w = Some txt →
       json_load w txt = JSONDecodeError →
       _load_download_history w s =
         (mkScraper (download_history s) (disk s)
            (ELog ERROR "Error reading history file, starting fresh" :: trace s),
          Ret ∅))
  ∧ (∀ txt e, disk s !! HISTORY_FILE w = Some txt →
       json_load w txt = JsonRaises e →
       _load_download_history w s = (s, Raise e)).
Proof.
  unfold _load_download_history. run_monad. split_and!.
  - by intros ->.
  - intros txt h -> ->. reflexivity.
  - intros txt -> ->. reflexivity.
  - intros txt e -> ->. reflexivity.
Qed.

(** C6, at the input on which the script departs from it.  The history
    file exists and holds the byte 255, which occurs in no UTF-8 text, so
    its content cannot be parsed.  Reading it raises [UnicodeDecodeError],
    which [except json.JSONDecodeError] does not catch: the load raises
    to its caller and logs nothing instead of returning an empty history,
    and the program stops in [__init__] with that exception.  A file that
    [json.load] rejects with [JSONDecodeError] is recovered from, on the
    same disk layout. *)
Theorem load_history_raises_on_undecodable_file :
  disk Sample2.s_undecodable !! HISTORY_FILE Sample2.w_json
  = Some (String (ascii_of_nat 255) EmptyString)
  ∧ _load_download_history Sample2.w_json Sample2.s_undecodable
    = (Sample2.s_undecodable,
       Raise (UnicodeDecodeError "'utf-8' codec can't decode byte 0xff"))
  ∧ main Sample2.w_json (disk Sample2.s_undecodable)
    = (mkScraper ∅ (disk Sample2.s_undecodable)
         [ELog INFO "Starting KOStats scraper"],
       Raise (UnicodeDecodeError "'utf-8' codec can't decode byte 0xff"))
  ∧ _load_download_history Sample2.w_json Sample.s_corrupt
    = (mkScraper ∅ (disk Sample.s_corrupt)
         [ELog ERROR "Error reading history file, starting fresh"],
       Ret ∅).
Proof. split_and!; vm_compute; reflexivity. Qed.

(** ** Saving over the store in place *)

Lemma take_chars_prefix n : ∀ s, ∃ rest, s = take_chars n s +:+ rest.
Proof.
  induction n as [|n IH]; intros s.
  - exists s. by destruct s.
  - destruct s as [|c r]; [by exists ""|].
    destruct (IH r) as [rest Hr]. exists rest.
    cbn [take_chars]. change (String c r = String c (take_chars n r +:+ rest)).
    by rewrite <- Hr.
Qed.

Lemma take_chars_all s : take_chars (String.length s) s = s.
Proof.
  induction s as [|c r IH]; [done|].
  cbn [String.length take_chars]. by rewrite IH.
Qed.

Lemma take_chars_0 s : take_chars 0 s = "".
Proof. by destruct s. Qed.

(** The state after the [open] and the first [k] writes of the method,
    were every write to reach the disk at once, is the crash state in
    which all of the written text has been flushed. *)
Lemma save_steps_prefix (w : World) (k : nat) (s : Scraper) :
  do_steps (take (S k) (save_steps w (download_history s))) s
  = (killed_save w k
       (String.length
          (written_text (take k (json_dump w (download_history s))))) s,
     Ret tt).
Proof.
  unfold save_steps, killed_save. cbn [take do_steps]. rewrite firstn_map.
  unfold bind, fs_open_w.
  rewrite (do_steps_writes _ _ _ "").
  - cbn [download_history disk trace String.append].
    by rewrite insert_insert_eq, take_chars_all.
  - cbn [disk]. apply lookup_insert_eq.
Qed.

(** C2, as the script has it.  Saving opens the history file in place,
    which empties it, hands the chunks of the serialisation to a buffered
    file object one after the other and closes it; there is no temporary
    file and nothing is renamed.  When the process is killed after the
    [open] and [k] writes, the file holds the part of the written text
    that had reached the disk: a leading part of the new serialisation,
    and nothing at all when nothing had been flushed.  What the file held
    before plays no part.  The events behind such a state are the
    method's own first steps, the [open] and [k] writes.  Only a save
    that runs to its end, the case of all chunks written and all of the
    text flushed, leaves the whole serialisation.  No other file is
    created or changed, and the history in memory is not touched. *)
Theorem save_overwrites_in_place (w : World) (s : Scraper) (k flushed : nat) :
  disk (killed_save w k flushed s) !! HISTORY_FILE w
  = Some (take_chars flushed
            (written_text (take k (json_dump w (download_history s)))))
  ∧ (∃ rest,
       written_text (json_dump w (download_history s))
       = take_chars flushed
           (written_text (take k (json_dump w (download_history s))))
         +:+ rest)
  ∧ disk (killed_save w k 0 s) !! HISTORY_FILE w = Some ""
  ∧ trace (killed_save w k flushed s)
    = trace (fst (do_steps (take (S k) (save_steps w (download_history s))) s))
  ∧ fst (_save_download_history w s)
    = killed_save w (length (json_dump w (download_history s)))
        (String.length (written_text (json_dump w (download_history s)))) s
  ∧ disk (fst (_save_download_history w s)) !! HISTORY_FILE w
    = Some (written_text (json_dump w (download_history s)))
  ∧ (∀ p, p ≠ HISTORY_FILE w →
       disk (killed_save w k flushed s) !! p = disk s !! p)
  ∧ opened (trace (killed_save w k flushed s))
    = opened (trace s) ++ [HISTORY_FILE w]
  ∧ download_history (killed_save w k flushed s) = download_history s.
Proof.
  rewrite save_download_history_state. unfold killed_save.
  cbn [fst disk trace download_history]. split_and!.
  - apply lookup_insert_eq.
  - destruct (take_chars_prefix flushed
                (written_text (take k (json_dump w (download_history s)))))
      as [rest Hrest].
    exists (rest +:+ written_text (drop k (json_dump w (download_history s)))).
    rewrite <- append_assoc, <- Hrest, <- written_text_app.
    by rewrite take_drop.
  - rewrite take_chars_0. apply lookup_insert_eq.
  - by rewrite save_steps_prefix.
  - by rewrite firstn_all, take_chars_all.
  - apply lookup_insert_eq.
  - intros p Hp. by apply lookup_insert_ne.
  - rewrite opened_app, opened_cons, <- map_rev, opened_writes.
    by rewrite app_nil_r.
  - reflexivity.
Qed.

(** C2 refuted as stated: a save killed right after its [open], or after
    all its writes with nothing flushed yet, leaves the earlier store
    empty, and loading it yields an empty history instead of the one
    persisted before. *)
Lemma save_interrupted_loses_store :
  disk Sample.s_saved_before !! HISTORY_FILE Sample.w_ok = Some "{CBK:{}}"
  ∧ snd (_load_download_history Sample.w_ok Sample.s_saved_before)
    = Ret {["CBK" := ∅]}
  ∧ disk (killed_save Sample.w_ok 0 0 Sample.s_saved_before)
      !! HISTORY_FILE Sample.w_ok = Some ""
  ∧ disk (killed_save Sample.w_ok 3 0 Sample.s_saved_before)
      !! HISTORY_FILE Sample.w_ok = Some ""
  ∧ snd (_load_download_history Sample.w_ok
           (killed_save Sample.w_ok 0 0 Sample.s_saved_before))
    = Ret ∅
  ∧ ({["CBK" := ∅]} : History) ≠ ∅.
Proof.
  split_and!; try (vm_compute; reflexivity).
  intros H. apply (f_equal (fun m : History => m !! "CBK")) in H.
  vm_compute in H. discriminate.
Qed.

(** ** One download attempt *)

(** C3. When the history already holds a record for the sport code and
    file name, [download_file] requests nothing, opens no file, leaves the
    history and the disk as they were and returns [False]: all it does is
    log that it skips the file.  The URL and the site play no part. *)
Theorem never_redownload (w : World) (c n u : string) (s : Scraper)
    (r : DownloadRecord) :
  record_of (download_history s) c n = Some r →
  download_file w c n u s =
    (mkScraper (download_history s) (disk s)
       (ELog INFO ("Skipping " +:+ n +:+ " - already downloaded") :: trace s),
     Ret false)
  ∧ fetched (trace (fst (download_file w c n u s))) = fetched (trace s)
  ∧ opened (trace (fst (download_file w c n u s))) = opened (trace s).
Proof.
  intros Hr.
  assert (already_downloaded (download_history s) c n = true) as Ha.
  { apply already_downloaded_record. by exists r. }
  rewrite (download_file_skip w c n u s Ha). cbn [fst trace].
  rewrite fetched_cons, opened_cons, !app_nil_r. done.
Qed.

Lemma never_redownload_witness :
  record_of (download_history Sample.s_has_A) "CBK" "A.TXT" = Some Sample.a_record
  ∧ snd (download_file Sample.w_missing "CBK" "A.TXT"
           "http://elsewhere.example/A.TXT" Sample.s_has_A) = Ret false.
Proof.
  assert (record_of (download_history Sample.s_has_A) "CBK" "A.TXT"
          = Some Sample.a_record) as H by (vm_compute; reflexivity).
  split; [exact H|].
  rewrite (proj1 (never_redownload Sample.w_missing "CBK" "A.TXT"
                    "http://elsewhere.example/A.TXT" Sample.s_has_A
                    Sample.a_record H)).
  reflexivity.
Defined.

(** ** Listing a sport page: what the caller sees *)

Lemma collect_links_raises w sport_url hrefs href e :
  href ∈ hrefs → urljoin w sport_url href = Raise e →
  ∃ e', collect_links w sport_url hrefs = Raise e'.
Proof.
  induction hrefs as [|h rest IH]; [by intros ?%elem_of_nil|].
  rewrite elem_of_cons. intros Hin Hj. cbn [collect_links].
  destruct (urljoin w sport_url h) as [u|e0] eqn:Hh; [|by eexists].
  destruct Hin as [->|Hin]; [congruence|].
  destruct (IH Hin Hj) as [e' ->]. by eexists.
Qed.

(** C7, as the script has it.  For a code that is not configured, and for
    a page that answers with a status other than 200, [get_file_links]
    logs an error and returns the empty list.  A failure of the transport
    is not turned into an empty list: when the request for the page
    raises, the exception is not caught and reaches the caller, and so
    does the exception [urljoin] raises on a listed link it cannot
    resolve. *)
Theorem get_file_links_empty_on_error (w : World) (c : string) (s : Scraper) :
  (dict_get SPORT_PAGES c = None →
     get_file_links w c s =
       (mkScraper (download_history s) (disk s)
          (ELog ERROR ("Unknown sport code: " +:+ c) :: trace s),
        Ret []))
  ∧ (∀ sport_url r,
       dict_get SPORT_PAGES c = Some sport_url →
       session_get w (trace_listing c (trace s)) sport_url = Ret r →
       status_code r ≠ 200%Z →
       get_file_links w c s =
         (mkScraper (download_history s) (disk s)
            (ELog ERROR ("Failed to access " +:+ sport_url +:+ ", status code: "
                         +:+ pretty (status_code r))
             :: EGet sport_url :: trace_listing c (trace s)),
          Ret []))
  ∧ (∀ sport_url e,
       dict_get SPORT_PAGES c = Some sport_url →
       session_get w (trace_listing c (trace s)) sport_url = Raise e →
       get_file_links w c s =
         (mkScraper (download_history s) (disk s)
            (EGet sport_url :: trace_listing c (trace s)),
          Raise e))
  ∧ (∀ sport_url r href e,
       dict_get SPORT_PAGES c = Some sport_url →
       session_get w (trace_listing c (trace s)) sport_url = Ret r →
       status_code r = 200%Z →
       href ∈ List.filter PyStr.search_dot_txt (soup_anchor_hrefs w (text r)) →
       urljoin w sport_url href = Raise e →
       ∃ e', get_file_links w c s =
               (mkScraper (download_history s) (disk s)
                  (EGet sport_url :: trace_listing c (trace s)),
                Raise e')).
Proof.
  pose proof (get_file_links_cases w c s) as Hc. split_and!.
  - intros Hu.
    inversion Hc as [Hu' Heq | u e Hu' Hg Heq | u r Hu' Hg Hst Heq
                     | u r e Hu' Hg Hst Hl Heq | u r l Hu' Hg Hst Hl Heq];
      congruence.
  - intros sport_url r0 Hu Hg0 Hst0.
    inversion Hc as [Hu' Heq | u e Hu' Hg Heq | u r Hu' Hg Hst Heq
                     | u r e Hu' Hg Hst Hl Heq | u r l Hu' Hg Hst Hl Heq];
      congruence.
  - intros sport_url e0 Hu Hg0.
    inversion Hc as [Hu' Heq | u e Hu' Hg Heq | u r Hu' Hg Hst Heq
                     | u r e Hu' Hg Hst Hl Heq | u r l Hu' Hg Hst Hl Heq];
      congruence.
  - intros sport_url r0 href e0 Hu Hg0 Hst0 Hin Hj.
    destruct (collect_links_raises w _ _ _ _ Hin Hj) as [e' He'].
    exists e'.
    inversion Hc as [Hu' Heq | u e Hu' Hg Heq | u r Hu' Hg Hst Heq
                     | u r e Hu' Hg Hst Hl Heq | u r l Hu' Hg Hst Hl Heq];
      try unfold links_of_page in Hl; congruence.
Qed.

Lemma get_file_links_empty_on_error_witness :
  snd (get_file_links Sample.w_ok "XYZ" Sample.s_fresh) = Ret []
  ∧ snd (get_file_links (Sample.world_of (fun _ => Sample.not_found)) "CBK"
           Sample.s_fresh) = Ret []
  ∧ snd (get_file_links Sample.w_down "CBK" Sample.s_fresh)
    = Raise (RequestException "connection refused")
  ∧ ∃ e, snd (get_file_links Sample2.w_bad_link "CBK" Sample.s_fresh) = Raise e.
Proof.
  split_and!.
  - rewrite (proj1 (get_file_links_empty_on_error Sample.w_ok "XYZ" Sample.s_fresh));
      reflexivity.
  - rewrite (proj1 (proj2 (get_file_links_empty_on_error
                             (Sample.world_of (fun _ => Sample.not_found))
                             "CBK" Sample.s_fresh))
               Sample.CBK_URL (mkResponse 404 "" ""));
      [reflexivity | reflexivity | reflexivity | discriminate].
  - rewrite (proj1 (proj2 (proj2 (get_file_links_empty_on_error
                                    Sample.w_down "CBK" Sample.s_fresh)))
               Sample.CBK_URL (RequestException "connection refused"));
      reflexivity.
  - destruct (proj2 (proj2 (proj2 (get_file_links_empty_on_error
                                     Sample2.w_bad_link "CBK" Sample.s_fresh)))
                Sample.CBK_URL
                (mkResponse 200 "A.TXT http://[::1/B.TXT"
                   "A.TXT http://[::1/B.TXT")
                "http://[::1/B.TXT" (ValueError "Invalid IPv6 URL"))
      as [e' He'].
    + reflexivity.
    + reflexivity.
    + reflexivity.
    + vm_compute. apply elem_of_cons. right. apply elem_of_cons. by left.
    + reflexivity.
    + exists e'. by rewrite He'.
Defined.

(** C7 refuted as stated: when the request for the page raises, so does
    [get_file_links]. *)
Lemma get_file_links_raises_when_site_down :
  dict_get SPORT_PAGES "CBK" = Some Sample.CBK_URL
  ∧ snd (get_file_links Sample.w_down "CBK" Sample.s_fresh)
    = Raise (RequestException "connection refused").
Proof. split; vm_compute; reflexivity. Qed.

(** ** The whole run *)

Lemma login_url_is_no_sport_page c : dict_get SPORT_PAGES c ≠ Some LOGIN_URL.
Proof.
  unfold SPORT_PAGES. cbn [dict_get].
  repeat (destruct (String.eqb _ c); [discriminate|]).
  discriminate.
Qed.

(** C8. When [login] does not return [True] (it returns [False] or
    raises), [run] stops there: the only request sent with GET is the one
    for the login page, no sport page is listed, no file is opened for
    writing, and the history and the disk are what they were before the
    run.  A [False] makes [run] return; an exception is passed on. *)
Theorem login_failure_aborts (w : World) (s s1 : Scraper) (res : outcome bool) :
  login w s = (s1, res) →
  res ≠ Ret true →
  ∃ ev,
    fst (run w s) = mkScraper (download_history s) (disk s) (ev ++ trace s)
    ∧ fetched ev = [LOGIN_URL]
    ∧ opened ev = []
    ∧ (∀ c u, dict_get SPORT_PAGES c = Some u → u ∉ fetched ev)
    ∧ snd (run w s) = match res with
                      | Ret _ => Ret tt
                      | Raise e => Raise e
                      end.
Proof.
  intros Hl Hres. rewrite run_unfold, Hl.
  destruct (login_state w _ _ _ Hl) as (ev & -> & Hf & Ho).
  assert (∀ c u, dict_get SPORT_PAGES c = Some u → u ∉ [LOGIN_URL]) as Hpages.
  { intros c u Hu ->%list_elem_of_singleton.
    by apply (login_url_is_no_sport_page c). }
  destruct res as [[|]|e]; [done| |].
  - exists (ELog ERROR "Login failed, aborting" :: ev).
    cbn [fst snd download_history disk trace].
    rewrite fetched_cons, opened_cons, !app_nil_r, Hf, Ho. by split_and!.
  - exists ev. cbn [fst snd]. rewrite Hf, Ho. by split_and!.
Qed.

Lemma login_failure_aborts_witness :
  ∃ ev,
    fst (run (Sample.world_of (fun _ => Sample.not_found)) Sample.s_has_A)
    = mkScraper (download_history Sample.s_has_A) (disk Sample.s_has_A)
        (ev ++ trace Sample.s_has_A)
    ∧ fetched ev = [LOGIN_URL].
Proof.
  destruct (login_failure_aborts (Sample.world_of (fun _ => Sample.not_found))
              Sample.s_has_A
              (fst (login (Sample.world_of (fun _ => Sample.not_found)) Sample.s_has_A))
              (Ret false))
    as (ev & H1 & H2 & _).
  - vm_compute. reflexivity.
  - discriminate.
  - exists ev. by split.
Defined.

Lemma for_sports_frame w codes total s s' res k :
  for_sports w codes total s = (s', res) →
  k ∉ codes →
  download_history s' !! k = download_history s !! k.
Proof.
  intros Hs Hk. destruct (for_sports_effects w _ _ _ _ _ Hs) as [ev E].
  by apply (se_frame E).
Qed.

(** C9. A key of the history that is not one of the six configured sport
    codes keeps its mapping through the whole run, whatever the site
    serves and however the run ends: the run changes the history under
    configured codes only.  When the run logs in and gets to its end, the
    history file it leaves holds the serialisation of the final history,
    and reading that file back, when [json.load] returns what [json.dump]
    was given, yields a history with the same mapping under that key. *)
Theorem unconfigured_category_untouched (w : World) (s : Scraper) (k : string)
    (m : gmap string DownloadRecord) :
  k ∉ dict_keys SPORT_PAGES →
  download_history s !! k = Some m →
  download_history (fst (run w s)) !! k = Some m
  ∧ (∀ c, c ∉ dict_keys SPORT_PAGES →
       download_history (fst (run w s)) !! c = download_history s !! c)
  ∧ (∀ s1, login w s = (s1, Ret true) →
       snd (run w s) = Ret tt →
       disk (fst (run w s)) !! HISTORY_FILE w
       = Some (written_text (json_dump w (download_history (fst (run w s)))))
       ∧ (json_load w
            (written_text (json_dump w (download_history (fst (run w s)))))
          = JsonValue (download_history (fst (run w s))) →
          ∃ h', snd (_load_download_history w (fst (run w s))) = Ret h'
                ∧ h' !! k = Some m)).
Proof.
  intros Hk Hm.
  assert (∀ c, c ∉ dict_keys SPORT_PAGES →
            download_history (fst (run w s)) !! c = download_history s !! c)
    as Hframe.
  { intros c Hc. rewrite run_unfold.
    destruct (login w s) as [s1 [[|]|e]] eqn:Hl;
      destruct (login_state w _ _ _ Hl) as (ev & -> & _ & _); try done.
    destruct (for_sports w (dict_keys SPORT_PAGES) 0 _) as [s2 [total|e]] eqn:Hs;
      cbn [fst download_history];
      by rewrite (for_sports_frame _ _ _ _ _ _ _ Hs Hc). }
  assert (∀ s1, login w s = (s1, Ret true) →
            snd (run w s) = Ret tt →
            disk (fst (run w s)) !! HISTORY_FILE w
            = Some (written_text
                      (json_dump w (download_history (fst (run w s))))))
    as Hdisk.
  { intros s1 Hl. rewrite run_unfold, Hl.
    destruct (for_sports w (dict_keys SPORT_PAGES) 0 s1) as [s2 [total|e]];
      cbn [fst snd download_history disk]; [|discriminate].
    intros _. apply lookup_insert_eq. }
  split_and!.
  - by rewrite Hframe.
  - exact Hframe.
  - intros s1 Hl Hret. split; [by apply (Hdisk s1)|]. intros Hrt.
    exists (download_history (fst (run w s))). split; [|by rewrite Hframe].
    by rewrite (proj1 (proj2 (load_history_cases w (fst (run w s)))) _ _
                  (Hdisk s1 Hl Hret) Hrt).
Qed.

Lemma unconfigured_category_untouched_witness :
  ("WNBA" ∉ dict_keys SPORT_PAGES)
  ∧ download_history Sample2.s_with_wnba !! "WNBA"
    = Some {["W.TXT" := Sample2.w_record]}
  ∧ download_history (fst (run Sample2.w_json Sample2.s_with_wnba)) !! "WNBA"
    = Some {["W.TXT" := Sample2.w_record]}
  ∧ is_Some (record_of (download_history
                          (fst (run Sample2.w_json Sample2.s_with_wnba)))
               "CBK" "A.TXT")
  ∧ from_option
      (PyStr.contains
         (Json.literal "WNBA" +:+ ": "
          +:+ Json.dump_files "  " {["W.TXT" := Sample2.w_record]}))
      false
      (disk (fst (run Sample2.w_json Sample2.s_with_wnba))
         !! HISTORY_FILE Sample2.w_json)
    = true
  ∧ ∃ h', snd (_load_download_history Sample2.w_json
                 (fst (run Sample2.w_json Sample2.s_with_wnba))) = Ret h'
          ∧ h' !! "WNBA" = Some {["W.TXT" := Sample2.w_record]}.
Proof.
  assert ("WNBA" ∉ dict_keys SPORT_PAGES) as H.
  { rewrite sport_code_configured. vm_compute. by intros [? ?]. }
  assert (download_history Sample2.s_with_wnba !! "WNBA"
          = Some {["W.TXT" := Sample2.w_record]}) as Hm
    by (vm_compute; reflexivity).
  destruct (unconfigured_category_untouched Sample2.w_json Sample2.s_with_wnba
              "WNBA" {["W.TXT" := Sample2.w_record]} H Hm)
    as (H1 & _ & H3).
  destruct (H3 (fst (login Sample2.w_json Sample2.s_with_wnba)))
    as (_ & H4).
  - vm_compute. reflexivity.
  - vm_compute. reflexivity.
  - split_and!; [exact H | exact Hm | exact H1 | | |].
    + vm_compute. by eexists.
    + vm_compute. reflexivity.
    + apply H4. vm_compute. reflexivity.
Defined.

(** ** Reconciliation of one sport *)




Lemma union_absorb_name (A L : gset string) n :
  n ∈ A → A ∪ L = A ∪ ({[n]} ∪ L).
Proof.
  intros Hn. apply set_eq. intros x.
  rewrite !elem_of_union, elem_of_singleton.
  split; [tauto|]. intros [?|[->|?]]; tauto.
Qed.

Lemma union_shift_name (A L : gset string) n :
  ({[n]} ∪ A) ∪ L = A ∪ ({[n]} ∪ L).
Proof.
  apply set_eq. intros x. rewrite !elem_of_union, elem_of_singleton. tauto.
Qed.

Section Reconcile.

Variable w : World.

(** The loop when every request for a listed file is answered with 200. *)
Lemma for_links_delta c B : ∀ k s,
  (∀ t n u, (n, u) ∈ B →
     ∃ r, session_get w t u = Ret r ∧ status_code r = 200%Z) →
  (∀ n u, (n, u) ∈ B → open_download_error w c n = None) →
  ∃ s' ev,
    for_links w c B k s
    = (s', Ret (k + Z.of_nat (length (delta (names_of (download_history s) c) B)))%Z)
    ∧ trace s' = ev ++ trace s
    ∧ fetched ev = map snd (delta (names_of (download_history s) c) B)
    ∧ opened ev
      = map (fun i => file_path_of w c (fst i))
            (delta (names_of (download_history s) c) B)
    ∧ names_of (download_history s') c
      = names_of (download_history s) c ∪ list_to_set (map fst B)
    ∧ (∀ n u, (n, u) ∈ delta (names_of (download_history s) c) B →
         ∃ ts, record_of (download_history s') c n = Some (mkRecord ts u)).
Proof.
  induction B as [|[n u] rest IH]; intros k s Hok Hdir.
  - exists s, []. cbn. split_and!; try done.
    + by rewrite Z.add_0_r.
    + by rewrite union_empty_r_L.
    + by intros n u ?%elem_of_nil.
  - rewrite for_links_cons. cbn [delta].
    assert (∀ t n' u', (n', u') ∈ rest →
              ∃ r, session_get w t u' = Ret r ∧ status_code r = 200%Z) as Hrest.
    { intros t n' u' Hin. apply (Hok t n' u'). apply elem_of_cons. by right. }
    assert (open_download_error w c n = None) as Hd.
    { apply (Hdir n u), elem_of_cons. by left. }
    assert (∀ n' u', (n', u') ∈ rest → open_download_error w c n' = None)
      as Hdrest.
    { intros n' u' Hin. apply (Hdir n' u'), elem_of_cons. by right. }
    destruct (decide (n ∈ names_of (download_history s) c)) as [Hin|Hin].
    + rewrite (download_file_skip w c n u s) by by apply already_downloaded_true.
      cbn [download_history disk trace].
      destruct (IH k (mkScraper (download_history s) (disk s)
                        (ESleep 1 :: ELog INFO ("Skipping " +:+ n
                           +:+ " - already downloaded") :: trace s)) Hrest Hdrest)
        as (s' & ev & Hf & Ht & Hfe & Hop & Hna & Hrec).
      cbn [download_history disk trace] in Hf, Ht, Hfe, Hop, Hna, Hrec.
      exists s', (ev ++ [ESleep 1; ELog INFO ("Skipping " +:+ n
                                   +:+ " - already downloaded")]).
      split_and!.
      * exact Hf.
      * by rewrite Ht, <- app_assoc.
      * by rewrite fetched_app, Hfe.
      * by rewrite opened_app, Hop.
      * rewrite Hna. cbn [map fst list_to_set]. by apply union_absorb_name.
      * exact Hrec.
    + destruct (Hok (trace_downloading n (trace s)) n u) as (r & Hg & Hst).
      { apply elem_of_cons. by left. }
      rewrite (download_file_ok w c n u s r) by
        (try done; by apply already_downloaded_false).
      cbn [download_history disk trace].
      set (h1 := record_download (download_history s) c n _).
      set (t1 := ESleep 1 :: ELog INFO ("Successfully downloaded " +:+ n)
                 :: trace_written w c n u r (trace s)).
      destruct (IH (k + 1)%Z (mkScraper h1 (<[file_path_of w c n := content r]> (disk s)) t1)
                  Hrest Hdrest)
        as (s' & ev & Hf & Ht & Hfe & Hop & Hna & Hrec).
      cbn [download_history disk trace] in Hf, Ht, Hfe, Hop, Hna, Hrec.
      assert (names_of h1 c = {[n]} ∪ names_of (download_history s) c) as Hn1
        by apply names_of_record_download.
      destruct (for_links_effects w _ _ _ _ _ _ Hf) as [ev' E].
      rewrite Hn1 in Hf, Hfe, Hop, Hna, Hrec.
      exists s', (ev ++ [ESleep 1; ELog INFO ("Successfully downloaded " +:+ n);
                         EWrite (file_path_of w c n) (content r);
                         EOpenW (file_path_of w c n); EGet u;
                         ELog INFO ("Downloading " +:+ n)]).
      split_and!.
      * rewrite Hf. do 2 f_equal. cbn [length]. lia.
      * by rewrite Ht, <- app_assoc.
      * rewrite fetched_app, Hfe. reflexivity.
      * rewrite opened_app, Hop. reflexivity.
      * rewrite Hna. cbn [map fst list_to_set]. apply union_shift_name.
      * intros n' u'. rewrite elem_of_cons. intros [[= -> ->]|Hin'].
        -- eexists. apply (eff_keep E). cbn [download_history].
           apply record_of_record_download_eq.
        -- by apply Hrec.
Qed.

End Reconcile.




(** ** Running again on an unchanged site *)

Section Again.

Variable w : World.

(** The sport pages answer the same whenever they are requested. *)
Hypothesis fixed_catalog : ∀ c sport_url t t',
  dict_get SPORT_PAGES c = Some sport_url →
  session_get w t sport_url = session_get w t' sport_url.

Lemma get_file_links_catalog c s s1 B :
  get_file_links w c s = (s1, Ret B) → B = catalog w c.
Proof.
  intros Hl. pose proof (get_file_links_cases w c s) as Hc. rewrite Hl in Hc.
  unfold catalog.
  inversion Hc as [Hu | | u r Hu Hg Hst | | u r links Hu Hg Hst Hlinks];
    subst; rewrite Hu.
  - done.
  - rewrite (fixed_catalog c u [] (trace_listing c (trace s)) Hu), Hg.
    apply Z.eqb_neq in Hst. by rewrite Hst.
  - rewrite (fixed_catalog c u [] (trace_listing c (trace s)) Hu), Hg.
    apply Z.eqb_eq in Hst. by rewrite Hst, Hlinks.
Qed.

Lemma get_file_links_answers c s s1 B sport_url :
  get_file_links w c s = (s1, Ret B) →
  dict_get SPORT_PAGES c = Some sport_url →
  ∃ r, session_get w [] sport_url = Ret r
       ∧ (status_code r = 200%Z →
          ∃ links, links_of_page w sport_url r = Ret links).
Proof.
  intros Hl Hu. pose proof (get_file_links_cases w c s) as Hc. rewrite Hl in Hc.
  inversion Hc as [Hu' | | u r Hu' Hg Hst | | u r links Hu' Hg Hst Hlinks];
    subst.
  - congruence.
  - assert (u = sport_url) as -> by congruence. exists r. split; [|done].
    by rewrite (fixed_catalog c sport_url [] (trace_listing c (trace s)) Hu).
  - assert (u = sport_url) as -> by congruence. exists r. split; [|by eauto].
    by rewrite (fixed_catalog c sport_url [] (trace_listing c (trace s)) Hu).
Qed.

(** The loop over links that are all recorded already: nothing but log
    lines and pauses. *)
Lemma for_links_all_recorded c B : ∀ k s,
  (∀ n u, (n, u) ∈ B → n ∈ names_of (download_history s) c) →
  ∃ ev,
    for_links w c B k s
    = (mkScraper (download_history s) (disk s) (ev ++ trace s), Ret k)
    ∧ fetched ev = [] ∧ opened ev = [].
Proof.
  induction B as [|[n u] rest IH]; intros k s Hall.
  - exists []. by destruct s.
  - rewrite for_links_cons.
    rewrite (download_file_skip w c n u s).
    2:{ apply already_downloaded_true, (Hall n u), elem_of_cons. by left. }
    cbn [download_history disk trace].
    destruct (IH k (mkScraper (download_history s) (disk s)
                      (ESleep 1 :: ELog INFO ("Skipping " +:+ n
                         +:+ " - already downloaded") :: trace s)))
      as (ev & Hf & Hfe & Hop).
    { intros n' u' Hin. apply (Hall n' u'), elem_of_cons. by right. }
    cbn [download_history disk trace] in Hf.
    exists (ev ++ [ESleep 1; ELog INFO ("Skipping " +:+ n
                                +:+ " - already downloaded")]).
    split_and!.
    + by rewrite Hf, <- app_assoc.
    + by rewrite fetched_app, Hfe.
    + by rewrite opened_app, Hop.
Qed.

Lemma process_sport_all_recorded c s :
  (∀ n u, (n, u) ∈ catalog w c → n ∈ names_of (download_history s) c) →
  (∀ sport_url, dict_get SPORT_PAGES c = Some sport_url →
     ∃ r, session_get w [] sport_url = Ret r
          ∧ (status_code r = 200%Z →
             ∃ links, links_of_page w sport_url r = Ret links)) →
  ∃ ev,
    process_sport w c s
    = (mkScraper (download_history s) (disk s) (ev ++ trace s), Ret 0%Z)
    ∧ opened ev = []
    ∧ (∀ u, u ∈ fetched ev → dict_get SPORT_PAGES c = Some u).
Proof.
  intros Hall Hans. rewrite process_sport_unfold.
  destruct (get_file_links w c s) as [s1 [B|e]] eqn:Hl.
  - rewrite (get_file_links_catalog _ _ _ _ Hl) in *.
    destruct (get_file_links_state w _ _ _ _ Hl) as (ev0 & -> & Ho & Hfe0).
    destruct (for_links_all_recorded c (catalog w c) 0
                (mkScraper (download_history s) (disk s) (ev0 ++ trace s)) Hall)
      as (ev & Hf & Hfe & Hop).
    rewrite Hf. cbn [download_history disk trace].
    eexists (ELog INFO _ :: ev ++ ev0). split_and!.
    + cbn [app]. by rewrite app_assoc.
    + by rewrite opened_cons, opened_app, Ho, Hop.
    + intros u. rewrite fetched_cons, fetched_app, Hfe, !app_nil_r. apply Hfe0.
  - exfalso. pose proof (get_file_links_cases w c s) as Hc. rewrite Hl in Hc.
    inversion Hc as [ | u e' Hu Hg | | u r e' Hu Hg Hst Hlinks | ]; subst.
    + destruct (Hans u Hu) as (r & Hr & _).
      rewrite (fixed_catalog c u [] (trace_listing c (trace s)) Hu) in Hr.
      congruence.
    + destruct (Hans u Hu) as (r' & Hr & Hok).
      rewrite (fixed_catalog c u [] (trace_listing c (trace s)) Hu) in Hr.
      assert (r' = r) as -> by congruence.
      destruct (Hok Hst) as [links Hl']. congruence.
Qed.

Lemma for_sports_all_recorded codes : ∀ total s,
  (∀ c, c ∈ codes →
     (∀ n u, (n, u) ∈ catalog w c → n ∈ names_of (download_history s) c)
     ∧ (∀ sport_url, dict_get SPORT_PAGES c = Some sport_url →
          ∃ r, session_get w [] sport_url = Ret r
               ∧ (status_code r = 200%Z →
                  ∃ links, links_of_page w sport_url r = Ret links))) →
  ∃ ev,
    for_sports w codes total s
    = (mkScraper (download_history s) (disk s) (ev ++ trace s), Ret total)
    ∧ opened ev = []
    ∧ (∀ u, u ∈ fetched ev → ∃ c, dict_get SPORT_PAGES c = Some u).
Proof.
  induction codes as [|c rest IH]; intros total s Hall.
  - exists []. split_and!; try done.
    + by destruct s.
    + by intros u ?%elem_of_nil.
  - rewrite for_sports_cons.
    destruct (Hall c) as [Hrec Hans]; [apply elem_of_cons; by left|].
    destruct (process_sport_all_recorded c s Hrec Hans) as (ev1 & Hp & Ho1 & Hf1).
    rewrite Hp.
    destruct (IH (total + 0)%Z
                (mkScraper (download_history s) (disk s) (ev1 ++ trace s)))
      as (ev2 & Hs & Ho2 & Hf2).
    { intros c' Hc'. cbn [download_history]. apply Hall, elem_of_cons. by right. }
    cbn [download_history disk trace] in Hs.
    exists (ev2 ++ ev1). split_and!.
    + rewrite Hs, Z.add_0_r. by rewrite <- app_assoc.
    + by rewrite opened_app, Ho1, Ho2.
    + intros u. rewrite fetched_app, elem_of_app. intros [Hu|Hu]; eauto.
Qed.

(** Every request for a listed file is answered with 200. *)
Hypothesis downloads_succeed : ∀ c n u t,
  (n, u) ∈ catalog w c →
  ∃ r, session_get w t u = Ret r ∧ status_code r = 200%Z.

Lemma first_run_records codes : ∀ total s s' t,
  for_sports w codes total s = (s', Ret t) →
  ∀ c, c ∈ codes →
    (∀ n u, (n, u) ∈ catalog w c → n ∈ names_of (download_history s') c)
    ∧ (∀ sport_url, dict_get SPORT_PAGES c = Some sport_url →
         ∃ r, session_get w [] sport_url = Ret r
              ∧ (status_code r = 200%Z →
                 ∃ links, links_of_page w sport_url r = Ret links)).
Proof.
  induction codes as [|c0 rest IH]; intros total s s' t Hs c Hc.
  - by apply elem_of_nil in Hc.
  - rewrite for_sports_cons in Hs.
    destruct (process_sport w c0 s) as [s1 [k|e]] eqn:Hp; [|done].
    destruct (for_sports_effects w _ _ _ _ _ Hs) as [ev E].
    apply elem_of_cons in Hc as [->|Hc]; [|by apply (IH _ _ _ _ Hs)].
    rewrite process_sport_unfold in Hp.
    destruct (get_file_links w c0 s) as [s0 [B|e]] eqn:Hl; [|done].
    split; [|intros u Hu; by apply (get_file_links_answers _ _ _ _ _ Hl Hu)].
    assert (∀ n u, (n, u) ∈ B → open_download_error w c0 n = None) as Hdir.
    { intros n u Hin.
      destruct (get_file_links_names w _ _ _ _ Hl n u Hin)
        as (-> & url & href & Hu & _).
      apply listed_name_opens, sport_code_configured. by eexists. }
    pose proof (get_file_links_catalog _ _ _ _ Hl) as ->.
    destruct (for_links_delta w c0 (catalog w c0) 0 s0)
      as (s2 & ev2 & Hf & _ & _ & _ & Hna & _).
    { intros t' n u Hin. apply (downloads_succeed c0 n u t' Hin). }
    { exact Hdir. }
    rewrite Hf in Hp. injection Hp as <- _.
    intros n u Hin. apply (sports_effects_names_mono w _ _ _ _ _ _ E).
    cbn [download_history]. rewrite Hna.
    apply elem_of_union_r, elem_of_list_to_set.
    apply list_elem_of_fmap. by exists (n, u).
Qed.

End Again.

Lemma fetched_writes p l : fetched (map (EWrite p) l) = [].
Proof.
  induction l as [|x l IH]; [done|].
  cbn [map]. by rewrite fetched_cons, IH.
Qed.

(** C4. Take a site whose sport pages answer the same at all times and
    which serves every listed file, and a first run that logged in and
    ran to its end.  A second run that starts from the history the first
    one ended with (kept in memory or loaded back, on whatever disk)
    downloads nothing: it leaves the history as it was, opens no file but
    the history file, changes no other file, sends GET requests to the
    login page and the sport pages only, and, when it logs in, counts 0
    new files in every sport and in total. *)
Theorem second_run_downloads_nothing (w : World) (s sa s1 s' : Scraper) :
  (∀ c sport_url t t', dict_get SPORT_PAGES c = Some sport_url →
     session_get w t sport_url = session_get w t' sport_url) →
  (∀ c n u t, (n, u) ∈ catalog w c →
     ∃ r, session_get w t u = Ret r ∧ status_code r = 200%Z) →
  login w s = (sa, Ret true) →
  run w s = (s1, Ret tt) →
  download_history s' = download_history s1 →
  ∃ ev,
    download_history (fst (run w s')) = download_history s1
    ∧ trace (fst (run w s')) = ev ++ trace s'
    ∧ (∀ p, p ∈ opened ev → p = HISTORY_FILE w)
    ∧ (∀ p, p ≠ HISTORY_FILE w → disk (fst (run w s')) !! p = disk s' !! p)
    ∧ (∀ u, u ∈ fetched ev →
         u = LOGIN_URL ∨ ∃ c, dict_get SPORT_PAGES c = Some u)
    ∧ (∀ sb, login w s' = (sb, Ret true) →
         (∃ s2, for_sports w (dict_keys SPORT_PAGES) 0 sb = (s2, Ret 0%Z))
         ∧ snd (run w s') = Ret tt
         ∧ head (trace (fst (run w s')))
           = Some (ELog INFO ("Scraper completed. Downloaded " +:+ pretty 0%Z
                              +:+ " new files in total."))).
Proof.
  intros Hfix Hok Hl Hrun Hsame. rewrite run_unfold, Hl in Hrun.
  destruct (for_sports w (dict_keys SPORT_PAGES) 0 sa) as [s2 [total|e]] eqn:Hs1;
    [|discriminate].
  pose proof (first_run_records w Hfix Hok _ _ _ _ _ Hs1) as Hrec.
  injection Hrun as <-. cbn [download_history] in Hsame |- *.
  rewrite <- Hsame in Hrec |- *.
  rewrite run_unfold.
  destruct (login w s') as [sb [[|]|e]] eqn:Hl2;
    destruct (login_state w _ _ _ Hl2) as (evl & -> & Hfl & Hol).
  - destruct (for_sports_all_recorded w Hfix (dict_keys SPORT_PAGES) 0
                (mkScraper (download_history s') (disk s') (evl ++ trace s')))
      as (ev2 & Hs2 & Ho2 & Hf2).
    { intros c Hc. apply Hrec, Hc. }
    rewrite Hs2. cbn [fst snd download_history disk trace].
    eexists (ELog INFO _ :: rev (map (EWrite (HISTORY_FILE w)) _)
             ++ EOpenW (HISTORY_FILE w) :: ev2 ++ evl).
    split_and!.
    + reflexivity.
    + cbn [app]. f_equal. rewrite <- app_assoc. cbn [app]. do 2 f_equal.
      by rewrite app_assoc.
    + intros p. rewrite opened_cons, opened_app, opened_cons, opened_app.
      rewrite <- map_rev, opened_writes, Hol, Ho2, !app_nil_r. cbn [app].
      by intros ->%list_elem_of_singleton.
    + intros p Hp. by apply lookup_insert_ne.
    + intros u. rewrite fetched_cons, fetched_app, fetched_cons, fetched_app.
      rewrite <- map_rev, fetched_writes, Hfl, !app_nil_r.
      rewrite elem_of_app, list_elem_of_singleton. intros [->|Hu]; auto.
    + intros sb [= <-]. split_and!; try reflexivity. by eexists.
  - cbn [fst snd download_history disk trace].
    exists (ELog ERROR "Login failed, aborting" :: evl). split_and!; try done.
    + intros p. rewrite opened_cons, Hol. by intros ?%elem_of_nil.
    + intros u. rewrite fetched_cons, Hfl, app_nil_r.
      intros ->%list_elem_of_singleton. by left.
  - cbn [fst snd download_history disk trace].
    exists evl. split_and!; try done.
    + intros p. rewrite Hol. by intros ?%elem_of_nil.
    + intros u. rewrite Hfl. intros ->%list_elem_of_singleton. by left.
Qed.

Lemma second_run_downloads_nothing_witness :
  ∃ ev,
    download_history (fst (run Sample.w_ok (fst (run Sample.w_ok Sample.s_fresh))))
    = download_history (fst (run Sample.w_ok Sample.s_fresh))
    ∧ trace (fst (run Sample.w_ok (fst (run Sample.w_ok Sample.s_fresh))))
      = ev ++ trace (fst (run Sample.w_ok Sample.s_fresh)).
Proof.
  destruct (second_run_downloads_nothing Sample.w_ok Sample.s_fresh
              (fst (login Sample.w_ok Sample.s_fresh))
              (fst (run Sample.w_ok Sample.s_fresh))
              (fst (run Sample.w_ok Sample.s_fresh)))
    as (ev & H1 & H2 & _).
  - intros c sport_url t t' _. reflexivity.
  - intros c n u t _. cbn [session_get Sample.w_ok Sample.world_of].
    unfold Sample.site, Sample.file_ok, Sample.ok.
    destruct (String.eqb u LOGIN_URL); [by eexists|].
    destruct (String.eqb u Sample.CBK_URL); [by eexists|].
    destruct (existsb _ _); by eexists.
  - vm_compute. reflexivity.
  - vm_compute. reflexivity.
  - reflexivity.
  - exists ev. by split.
Defined.

(** ** A download that fails *)

Section Failed.

Variable w : World.

(** The loop never records a name all of whose listed URLs are refused. *)
Lemma for_links_absent c n B : ∀ k s s' res,
  for_links w c B k s = (s', res) →
  n ∉ names_of (download_history s) c →
  (∀ u t r, (n, u) ∈ B → session_get w t u = Ret r → status_code r ≠ 200%Z) →
  n ∉ names_of (download_history s') c.
Proof.
  induction B as [|[n0 u0] rest IH]; intros k s s' res Hl Hn Hbad.
  - cbn in Hl. by injection Hl as <- _.
  - rewrite for_links_cons in Hl.
    assert (∀ u t r, (n, u) ∈ rest → session_get w t u = Ret r →
                     status_code r ≠ 200%Z) as Hrest.
    { intros u t r Hin. apply Hbad, elem_of_cons. by right. }
    pose proof (download_file_cases w c n0 u0 s) as Hc.
    destruct (download_file w c n0 u0 s) as [s1 [got|e]] eqn:Hd.
    + apply (IH _ _ _ _ Hl); [|done]. cbn [download_history].
      inversion Hc as [Hin | | r Hin Hg Hst | | r Hin Hg Hst Hdir]; subst;
        cbn [download_history]; try done.
      rewrite names_of_record_download, not_elem_of_union, not_elem_of_singleton.
      split; [|done]. intros ->.
      apply (Hbad u0 (trace_downloading n0 (trace s)) r);
        [apply elem_of_cons; by left | done | done].
    + injection Hl as <- _.
      inversion Hc as [ | e' Hin Hg | | r e' Hin Hg Hst Hdir | ]; by subst.
Qed.

Lemma names_of_frame (h h' : History) c :
  h' !! c = h !! c → names_of h' c = names_of h c.
Proof. unfold names_of. by intros ->. Qed.

(** A loop that gets to its end has requested every listed item whose
    name was not recorded, when no item of that name is served. *)
Lemma for_links_retries c n u B : ∀ k s s' k',
  for_links w c B k s = (s', Ret k') →
  (n, u) ∈ B →
  n ∉ names_of (download_history s) c →
  (∀ u' t r, (n, u') ∈ B → session_get w t u' = Ret r → status_code r ≠ 200%Z) →
  ∃ ev, trace s' = ev ++ trace s ∧ u ∈ fetched ev.
Proof.
  induction B as [|[n0 u0] rest IH]; intros k s s' k' Hl Hin Hn Hbad.
  - by apply elem_of_nil in Hin.
  - rewrite for_links_cons in Hl.
    assert (∀ u' t r, (n, u') ∈ rest → session_get w t u' = Ret r →
                      status_code r ≠ 200%Z) as Hrest.
    { intros u' t r Hin'. apply Hbad, elem_of_cons. by right. }
    pose proof (download_file_cases w c n0 u0 s) as Hc.
    destruct (download_file w c n0 u0 s) as [s1 [got|e]] eqn:Hd; [|done].
    apply elem_of_cons in Hin as [[= <- <-]|Hin].
    + destruct (for_links_effects w _ _ _ _ _ _ Hl) as [ev E].
      pose proof (eff_trace E) as Ht. cbn [trace] in Ht.
      inversion Hc as [Hin' | | r Hin' Hg Hst | | r Hin' Hg Hst Hdir]; subst;
        [done| |].
      * eexists (ev ++ [ESleep 1; _; EGet u; _]). split.
        -- rewrite Ht. cbn [trace]. unfold trace_downloading.
           by rewrite <- app_assoc.
        -- rewrite fetched_app, elem_of_app. left.
           rewrite !fetched_cons. cbn. apply elem_of_cons. by left.
      * exfalso. apply (Hbad u (trace_downloading n (trace s)) r);
          [apply elem_of_cons; by left | done | done].
    + assert (n ∉ names_of (download_history s1) c) as Hn1.
      { inversion Hc as [Hin' | | r Hin' Hg Hst | | r Hin' Hg Hst Hdir]; subst;
          cbn [download_history]; try done.
        rewrite names_of_record_download, not_elem_of_union,
          not_elem_of_singleton.
        split; [|done]. intros ->.
        apply (Hbad u0 (trace_downloading n0 (trace s)) r);
          [apply elem_of_cons; by left | done | done]. }
      destruct (download_file_effects w _ _ _ _ _ _ Hd) as [ev1 E1].
      destruct (IH _ _ _ _ Hl Hin Hn1 Hrest) as (ev & Ht & Hu).
      cbn [trace] in Ht. exists (ev ++ ESleep 1 :: ev1). split.
      * by rewrite Ht, (eff_trace E1), <- app_assoc.
      * rewrite fetched_app, elem_of_app. by right.
Qed.

Lemma catalog_configured c n u :
  (n, u) ∈ catalog w c → c ∈ dict_keys SPORT_PAGES.
Proof.
  unfold catalog. intros Hin. apply sport_code_configured.
  destruct (dict_get SPORT_PAGES c); [by eexists|].
  by apply elem_of_nil in Hin.
Qed.

(** In what follows the name [n] is never listed and served: no item
    that a listing of the sport gives under that name is answered with
    status 200. *)
Lemma process_sport_absent c' c n s s' res :
  process_sport w c' s = (s', res) →
  n ∉ names_of (download_history s) c →
  (∀ s1 s2 B u t r,
     get_file_links w c s1 = (s2, Ret B) → (n, u) ∈ B →
     session_get w t u = Ret r → status_code r ≠ 200%Z) →
  n ∉ names_of (download_history s') c.
Proof.
  intros Hp Hn Hbad. destruct (decide (c = c')) as [<-|Hne].
  - rewrite process_sport_unfold in Hp.
    destruct (get_file_links w c s) as [s1 [B|e]] eqn:Hl.
    + destruct (get_file_links_state w _ _ _ _ Hl) as (ev0 & Hs1 & _ & _).
      assert (n ∉ names_of (download_history s1) c) as Hn1 by by rewrite Hs1.
      assert (∀ u t r, (n, u) ∈ B → session_get w t u = Ret r →
                       status_code r ≠ 200%Z) as HB.
      { intros u t r. apply (Hbad s s1 B u t r Hl). }
      destruct (for_links w c B 0 s1) as [s2 [k|e]] eqn:Hf;
        pose proof (for_links_absent c n B _ _ _ _ Hf Hn1 HB);
        by injection Hp as <- _.
    + destruct (get_file_links_state w _ _ _ _ Hl) as (ev0 & Hs1 & _ & _).
      injection Hp as <- _. by rewrite Hs1.
  - destruct (process_sport_effects w _ _ _ _ Hp) as [ev E].
    rewrite (names_of_frame (download_history s) (download_history s')); [done|].
    apply (se_frame E). by intros ->%list_elem_of_singleton.
Qed.

Lemma for_sports_absent codes c n : ∀ total s s' res,
  for_sports w codes total s = (s', res) →
  n ∉ names_of (download_history s) c →
  (∀ s1 s2 B u t r,
     get_file_links w c s1 = (s2, Ret B) → (n, u) ∈ B →
     session_get w t u = Ret r → status_code r ≠ 200%Z) →
  n ∉ names_of (download_history s') c.
Proof.
  induction codes as [|c' rest IH]; intros total s s' res Hs Hn Hbad.
  - cbn in Hs. by injection Hs as <- _.
  - rewrite for_sports_cons in Hs.
    destruct (process_sport w c' s) as [s1 [k|e]] eqn:Hp;
      pose proof (process_sport_absent _ _ _ _ _ _ Hp Hn Hbad) as Hn1.
    + by apply (IH _ _ _ _ Hs).
    + by injection Hs as <- _.
Qed.

Lemma run_absent c n s :
  n ∉ names_of (download_history s) c →
  (∀ s1 s2 B u t r,
     get_file_links w c s1 = (s2, Ret B) → (n, u) ∈ B →
     session_get w t u = Ret r → status_code r ≠ 200%Z) →
  n ∉ names_of (download_history (fst (run w s))) c.
Proof.
  intros Hn Hbad. rewrite run_unfold.
  destruct (login w s) as [s1 [[|]|e]] eqn:Hl;
    destruct (login_state w _ _ _ Hl) as (ev & -> & _ & _); try done.
  destruct (for_sports w (dict_keys SPORT_PAGES) 0 _) as [s2 [total|e]] eqn:Hs;
    cbn [fst download_history];
    by apply (for_sports_absent _ _ _ _ _ _ _ Hs).
Qed.

(** The sport pages answer the same whenever they are requested. *)
Hypothesis fixed_catalog : ∀ c sport_url t t',
  dict_get SPORT_PAGES c = Some sport_url →
  session_get w t sport_url = session_get w t' sport_url.

Lemma catalog_never_served c n :
  (∀ u t r, (n, u) ∈ catalog w c → session_get w t u = Ret r →
            status_code r ≠ 200%Z) →
  ∀ s1 s2 B u t r,
    get_file_links w c s1 = (s2, Ret B) → (n, u) ∈ B →
    session_get w t u = Ret r → status_code r ≠ 200%Z.
Proof.
  intros Hbad s1 s2 B u t r Hl.
  rewrite (get_file_links_catalog w fixed_catalog _ _ _ _ Hl). apply Hbad.
Qed.

Lemma process_sport_retries c n u s s' k :
  process_sport w c s = (s', Ret k) →
  (n, u) ∈ catalog w c →
  n ∉ names_of (download_history s) c →
  (∀ u' t r, (n, u') ∈ catalog w c → session_get w t u' = Ret r →
             status_code r ≠ 200%Z) →
  ∃ ev, trace s' = ev ++ trace s ∧ u ∈ fetched ev.
Proof.
  intros Hp Hin Hn Hbad. rewrite process_sport_unfold in Hp.
  destruct (get_file_links w c s) as [s1 [B|e]] eqn:Hl; [|done].
  destruct (get_file_links_state w _ _ _ _ Hl) as (ev0 & Hs1 & _ & _).
  assert (n ∉ names_of (download_history s1) c) as Hn1 by by rewrite Hs1.
  rewrite (get_file_links_catalog w fixed_catalog _ _ _ _ Hl) in Hp.
  destruct (for_links w c (catalog w c) 0 s1) as [s2 [k2|e]] eqn:Hf; [|done].
  destruct (for_links_retries _ _ _ _ _ _ _ _ Hf Hin Hn1 Hbad) as (ev & Ht & Hu).
  injection Hp as <- _. cbn [trace].
  eexists (ELog INFO _ :: ev ++ ev0). split.
  - rewrite Ht, Hs1. cbn [trace app]. by rewrite app_assoc.
  - rewrite fetched_cons, app_nil_r, fetched_app, elem_of_app. by right.
Qed.

Lemma for_sports_retries codes c n u : ∀ total s s' t,
  for_sports w codes total s = (s', Ret t) →
  c ∈ codes →
  (n, u) ∈ catalog w c →
  n ∉ names_of (download_history s) c →
  (∀ u' t r, (n, u') ∈ catalog w c → session_get w t u' = Ret r →
             status_code r ≠ 200%Z) →
  ∃ ev, trace s' = ev ++ trace s ∧ u ∈ fetched ev.
Proof.
  induction codes as [|c0 rest IH]; intros total s s' t Hs Hc Hin Hn Hbad.
  - by apply elem_of_nil in Hc.
  - rewrite for_sports_cons in Hs.
    destruct (process_sport w c0 s) as [s1 [k|e]] eqn:Hp; [|done].
    destruct (decide (c = c0)) as [->|Hne].
    + destruct (process_sport_retries _ _ _ _ _ _ Hp Hin Hn Hbad)
        as (ev1 & Ht1 & Hu1).
      destruct (for_sports_effects w _ _ _ _ _ Hs) as [ev2 E2].
      exists (ev2 ++ ev1). split.
      * by rewrite (se_trace E2), Ht1, app_assoc.
      * rewrite fetched_app, elem_of_app. by left.
    + apply elem_of_cons in Hc as [->|Hc]; [done|].
      pose proof (process_sport_absent _ _ _ _ _ _ Hp Hn
                    (catalog_never_served _ _ Hbad)) as Hn1.
      destruct (IH _ _ _ _ Hs Hc Hin Hn1 Hbad) as (ev2 & Ht2 & Hu2).
      destruct (process_sport_effects w _ _ _ _ Hp) as [ev1 E1].
      exists (ev2 ++ ev1). split.
      * by rewrite Ht2, (se_trace E1), app_assoc.
      * rewrite fetched_app, elem_of_app. by right.
Qed.

(** A run that logs in and gets to its end requests every listed item
    whose name it does not hold, when no item of that name is served. *)
Lemma run_retries c n u s sa s2 :
  login w s = (sa, Ret true) →
  run w s = (s2, Ret tt) →
  (n, u) ∈ catalog w c →
  n ∉ names_of (download_history s) c →
  (∀ u' t r, (n, u') ∈ catalog w c → session_get w t u' = Ret r →
             status_code r ≠ 200%Z) →
  ∃ ev, trace s2 = ev ++ trace s ∧ u ∈ fetched ev.
Proof.
  intros Hl Hrun Hin Hn Hbad. rewrite run_unfold, Hl in Hrun.
  destruct (login_state w _ _ _ Hl) as (evl & Hsa & _ & _).
  destruct (for_sports w (dict_keys SPORT_PAGES) 0 sa) as [s3 [total|e]] eqn:Hs;
    [|discriminate].
  assert (n ∉ names_of (download_history sa) c) as Hna by by rewrite Hsa.
  destruct (for_sports_retries _ _ _ _ _ _ _ _ Hs (catalog_configured _ _ _ Hin)
              Hin Hna Hbad) as (ev & Ht & Hu).
  injection Hrun as <-. cbn [trace].
  eexists (ELog INFO _ :: rev (map (EWrite (HISTORY_FILE w)) _)
           ++ EOpenW (HISTORY_FILE w) :: ev ++ evl). split.
  - rewrite Ht, Hsa. cbn [trace app]. f_equal. rewrite <- app_assoc.
    cbn [app]. do 2 f_equal. by rewrite app_assoc.
  - rewrite fetched_cons, app_nil_r, fetched_app, elem_of_app. left.
    rewrite fetched_cons, app_nil_r, fetched_app, elem_of_app. by right.
Qed.

End Failed.

(** C5, as the script has it.  Take an item whose name is not recorded,
    so that [download_file] requests it, and let the answer carry a status
    other than 200.  Then [download_file] returns [False], opens no file,
    leaves the disk and the history as they were, and the name is absent
    from the history right after the attempt.  The history is keyed by
    name, so what a run leaves depends on the other listed items of that
    name.  When no item listed under that name is served with status 200,
    the name is absent from the history at the end of a run that started
    without it.  And a later run that starts without the name, logs in
    and gets to its end requests the item's URL again, the site still
    listing the item (its sport pages answer the same at all times) and
    still serving no item of that name. *)
Theorem failed_download_not_recorded (w : World) (c n u : string)
    (s : Scraper) (r : Response) :
  n ∉ names_of (download_history s) c →
  session_get w (trace_downloading n (trace s)) u = Ret r →
  status_code r ≠ 200%Z →
  snd (download_file w c n u s) = Ret false
  ∧ disk (fst (download_file w c n u s)) = disk s
  ∧ download_history (fst (download_file w c n u s)) = download_history s
  ∧ opened (trace (fst (download_file w c n u s))) = opened (trace s)
  ∧ (n ∉ names_of (download_history (fst (download_file w c n u s))) c)
  ∧ (∀ s0,
       n ∉ names_of (download_history s0) c →
       (∀ s1 s2 B u' t r',
          get_file_links w c s1 = (s2, Ret B) → (n, u') ∈ B →
          session_get w t u' = Ret r' → status_code r' ≠ 200%Z) →
       n ∉ names_of (download_history (fst (run w s0))) c)
  ∧ (∀ s' sa s2,
       (∀ c' sport_url t t', dict_get SPORT_PAGES c' = Some sport_url →
          session_get w t sport_url = session_get w t' sport_url) →
       (n, u) ∈ catalog w c →
       (∀ u' t r', (n, u') ∈ catalog w c → session_get w t u' = Ret r' →
                   status_code r' ≠ 200%Z) →
       n ∉ names_of (download_history s') c →
       login w s' = (sa, Ret true) →
       run w s' = (s2, Ret tt) →
       ∃ ev, trace s2 = ev ++ trace s' ∧ u ∈ fetched ev).
Proof.
  intros Hn Hg Hst.
  rewrite (download_file_status w c n u s r) by
    (try done; by apply already_downloaded_false).
  cbn [fst snd download_history disk trace]. split_and!; try done.
  - unfold trace_downloading. by rewrite !opened_cons, !app_nil_r.
  - intros s0 Hn0 Hbad. by apply run_absent.
  - intros s' sa s2 Hfix Hin Hbad Hn' Hl Hrun.
    by apply (run_retries w Hfix c n u s' sa s2 Hl Hrun Hin).
Qed.

Lemma failed_download_not_recorded_witness :
  snd (download_file Sample.w_missing "CBK" "A.TXT"
         "http://www.kostats.com/CBK_Subscription/A.TXT" Sample.s_fresh)
  = Ret false
  ∧ disk (fst (download_file Sample.w_missing "CBK" "A.TXT"
                 "http://www.kostats.com/CBK_Subscription/A.TXT" Sample.s_fresh))
    = disk Sample.s_fresh
  ∧ ("A.TXT" ∉ names_of (download_history
                           (fst (run Sample.w_missing Sample.s_fresh))) "CBK")
  ∧ ∃ ev,
      trace (fst (run Sample.w_missing
                    (fst (run Sample.w_missing Sample.s_fresh))))
      = ev ++ trace (fst (run Sample.w_missing Sample.s_fresh))
      ∧ "http://www.kostats.com/CBK_Subscription/A.TXT" ∈ fetched ev.
Proof.
  assert (catalog Sample.w_missing "CBK"
          = [("A.TXT", "http://www.kostats.com/CBK_Subscription/A.TXT")])
    as Hcat by (vm_compute; reflexivity).
  assert (∀ c' sport_url t t', dict_get SPORT_PAGES c' = Some sport_url →
            session_get Sample.w_missing t sport_url
            = session_get Sample.w_missing t' sport_url) as Hfix.
  { intros c' sport_url t t' _. reflexivity. }
  assert (∀ u' t r',
            ("A.TXT", u') ∈ catalog Sample.w_missing "CBK" →
            session_get Sample.w_missing t u' = Ret r' →
            status_code r' ≠ 200%Z) as Hbad.
  { intros u' t r'. rewrite Hcat, elem_of_cons, elem_of_nil.
    intros [[= ->]|[]]. intros [= <-]. discriminate. }
  assert ("A.TXT" ∉ names_of (download_history Sample.s_fresh) "CBK") as Hn.
  { rewrite names_of_record. intros [x Hx]. vm_compute in Hx. discriminate. }
  destruct (failed_download_not_recorded Sample.w_missing "CBK" "A.TXT"
              "http://www.kostats.com/CBK_Subscription/A.TXT" Sample.s_fresh
              (mkResponse 404 "" ""))
    as (H1 & H2 & _ & _ & _ & H6 & H7).
  - exact Hn.
  - reflexivity.
  - discriminate.
  - assert ("A.TXT" ∉ names_of (download_history
                                  (fst (run Sample.w_missing Sample.s_fresh)))
                        "CBK") as Hafter.
    { apply (H6 Sample.s_fresh Hn).
      intros s1 s2 B u' t r' Hl.
      rewrite (get_file_links_catalog Sample.w_missing Hfix _ _ _ _ Hl).
      apply Hbad. }
    split_and!; [exact H1 | exact H2 | exact Hafter |].
    apply (H7 (fst (run Sample.w_missing Sample.s_fresh))
             (fst (login Sample.w_missing
                     (fst (run Sample.w_missing Sample.s_fresh))))
             (fst (run Sample.w_missing
                     (fst (run Sample.w_missing Sample.s_fresh))))
             Hfix).
    + rewrite Hcat. apply elem_of_cons. by left.
    + exact Hbad.
    + exact Hafter.
    + vm_compute. reflexivity.
    + vm_compute. reflexivity.
Defined.

(** C5 refuted as stated: the CBK page lists two links with the same last
    segment; the request for the first is answered with 404, so that
    download fails, and yet the name is in the history after the run
    because the second link is served.  The run that follows does not
    request the first link again. *)
Lemma failed_download_recorded_through_twin :
  snd (get_file_links Sample.w_collision "CBK" Sample.s_fresh)
  = Ret [("X.TXT", "http://www.kostats.com/CBK_Subscription/old/X.TXT");
         ("X.TXT", "http://www.kostats.com/CBK_Subscription/new/X.TXT")]
  ∧ session_get Sample.w_collision
      (trace_downloading "X.TXT"
         (trace (fst (get_file_links Sample.w_collision "CBK"
                        (fst (login Sample.w_collision Sample.s_fresh))))))
      "http://www.kostats.com/CBK_Subscription/old/X.TXT"
    = Ret (mkResponse 404 "" "")
  ∧ url <$> record_of (download_history (fst (run Sample.w_collision Sample.s_fresh)))
              "CBK" "X.TXT"
    = Some "http://www.kostats.com/CBK_Subscription/new/X.TXT"
  ∧ fetched (trace (fst (run Sample.w_collision Sample.s_fresh)))
    = [LOGIN_URL; Sample.CBK_URL;
       "http://www.kostats.com/CBK_Subscription/old/X.TXT";
       "http://www.kostats.com/CBK_Subscription/new/X.TXT";
       "http://www.kostats.com/CFB_Subscription/CFB.HTM";
       "http://www.kostats.com/MLB_Subscription/MLB.HTM";
       "http://www.kostats.com/NBA_Subscription/NBA.HTM";
       "http://www.kostats.com/NFL_Subscription/NFL.HTM";
       "http://www.kostats.com/NHL_Subscription/NHL.HTM"]
  ∧ fetched (trace (fst (run Sample.w_collision
                           (mkScraper
                              (download_history
                                 (fst (run Sample.w_collision Sample.s_fresh)))
                              (disk (fst (run Sample.w_collision Sample.s_fresh)))
                              []))))
    = [LOGIN_URL; Sample.CBK_URL;
       "http://www.kostats.com/CFB_Subscription/CFB.HTM";
       "http://www.kostats.com/MLB_Subscription/MLB.HTM";
       "http://www.kostats.com/NBA_Subscription/NBA.HTM";
       "http://www.kostats.com/NFL_Subscription/NFL.HTM";
       "http://www.kostats.com/NHL_Subscription/NHL.HTM"].
Proof. split_and!; vm_compute; reflexivity. Qed.

(** ** Two links with the same last segment *)

Lemma append_inj_l (s x y : string) : s +:+ x = s +:+ y → x = y.
Proof.
  induction s as [|a s IH]; [done|].
  change (String a (s +:+ x) = String a (s +:+ y) → x = y).
  intros [= H]. by apply IH.
Qed.

Lemma join2_inj a n n' :
  PyStr.startswith "/" n = false → PyStr.startswith "/" n' = false →
  PyStr.join2 a n = PyStr.join2 a n' → n = n'.
Proof.
  unfold PyStr.join2. intros -> ->.
  destruct (_ || _)%bool.
  - apply append_inj_l.
  - intros H%append_inj_l. by apply (append_inj_l "/").
Qed.

Lemma file_path_of_inj w c n n' :
  PyStr.startswith "/" n = false → PyStr.startswith "/" n' = false →
  file_path_of w c n = file_path_of w c n' → n = n'.
Proof.
  unfold file_path_of, PyStr.join. cbn [fold_left]. apply join2_inj.
Qed.

Lemma for_links_app w c B1 B2 : ∀ k s,
  for_links w c (B1 ++ B2) k s =
  match for_links w c B1 k s with
  | (s1, Ret k1) => for_links w c B2 k1 s1
  | (s1, Raise e) => (s1, Raise e)
  end.
Proof.
  induction B1 as [|[n u] B1 IH]; intros k s.
  - reflexivity.
  - cbn [app]. rewrite !for_links_cons.
    destruct (download_file w c n u s) as [s1 [got|e]]; [|done]. apply IH.
Qed.

(** C10. [get_file_links] names every item after the last segment of its
    resolved URL, so listed links whose URLs end in the same segment give
    items with the same name.  Once [process_sport] has downloaded and
    recorded the first of them, no later item with that name is fetched
    and the file is not opened again: at the end the history holds the
    one record made for the first URL and the file holds the content
    received from it. *)
Theorem basename_collision (w : World) (c : string) (s s1 : Scraper)
    (B1 B2 : list (string * string)) (n u1 : string) (sa sb s2 : Scraper)
    (ka : Z) (res : outcome Z) :
  get_file_links w c s = (s1, Ret (B1 ++ (n, u1) :: B2)) →
  for_links w c B1 0 s1 = (sa, Ret ka) →
  download_file w c n u1 sa = (sb, Ret true) →
  process_sport w c s = (s2, res) →
  (∀ n' u', (n', u') ∈ B1 ++ (n, u1) :: B2 → n' = PyStr.basename u')
  ∧ (∀ na ua nb ub,
       (na, ua) ∈ B1 ++ (n, u1) :: B2 → (nb, ub) ∈ B1 ++ (n, u1) :: B2 →
       PyStr.basename ua = PyStr.basename ub → na = nb)
  ∧ ∃ r1 ts,
      session_get w (trace_downloading n (trace sa)) u1 = Ret r1
      ∧ record_of (download_history sb) c n = Some (mkRecord ts u1)
      ∧ disk sb !! file_path_of w c n = Some (content r1)
      ∧ record_of (download_history s2) c n = Some (mkRecord ts u1)
      ∧ disk s2 !! file_path_of w c n = Some (content r1)
      ∧ ∃ ev, trace s2 = ev ++ trace sb
          ∧ (file_path_of w c n ∉ opened ev)
          ∧ (∀ u2, (n, u2) ∈ B2 → u2 ∉ fetched ev).
Proof.
  intros Hl H1 Hd Hp.
  assert (∀ n' u', (n', u') ∈ B1 ++ (n, u1) :: B2 → n' = PyStr.basename u')
    as Hnames.
  { intros n' u' Hin. by apply (get_file_links_names w _ _ _ _ Hl). }
  split; [exact Hnames|]. split.
  { intros na ua nb ub Ha Hb Heq.
    by rewrite (Hnames na ua Ha), (Hnames nb ub Hb). }
  assert (∀ n' u', (n', u') ∈ B2 → n' = PyStr.basename u') as Hnames2.
  { intros n' u' Hin. apply Hnames. rewrite elem_of_app, elem_of_cons. auto. }
  assert (n = PyStr.basename u1) as Hn.
  { apply Hnames. rewrite elem_of_app, elem_of_cons. auto. }
  assert (∃ r1, session_get w (trace_downloading n (trace sa)) u1 = Ret r1
            ∧ sb = mkScraper
                (record_download (download_history sa) c n
                   (mkRecord (datetime_now_isoformat w
                                (trace_written w c n u1 r1 (trace sa))) u1))
                (<[file_path_of w c n := content r1]> (disk sa))
                (ELog INFO ("Successfully downloaded " +:+ n)
                 :: trace_written w c n u1 r1 (trace sa)))
    as (r1 & Hg & Heq).
  { pose proof (download_file_cases w c n u1 sa) as Hc. rewrite Hd in Hc.
    inversion Hc as [ | | | | r1 Hin Hg Hst Hdir Heq]. by exists r1. }
  exists r1, (datetime_now_isoformat w (trace_written w c n u1 r1 (trace sa))).
  assert (record_of (download_history sb) c n
          = Some (mkRecord (datetime_now_isoformat w
                              (trace_written w c n u1 r1 (trace sa))) u1))
    as Hrec.
  { rewrite Heq. cbn [download_history]. apply record_of_record_download_eq. }
  assert (disk sb !! file_path_of w c n = Some (content r1)) as Hdisk.
  { rewrite Heq. cbn [disk]. apply lookup_insert_eq. }
  clear Heq.
  rewrite process_sport_unfold, Hl, for_links_app, H1, for_links_cons, Hd in Hp.
  assert (∀ s3 ev,
            effects w c B2
              (mkScraper (download_history sb) (disk sb) (ESleep 1 :: trace sb))
              s3 ev →
            record_of (download_history s3) c n
            = Some (mkRecord (datetime_now_isoformat w
                                (trace_written w c n u1 r1 (trace sa))) u1)
            ∧ disk s3 !! file_path_of w c n = Some (content r1)
            ∧ trace s3 = (ev ++ [ESleep 1]) ++ trace sb
            ∧ (file_path_of w c n ∉ opened (ev ++ [ESleep 1]))
            ∧ (∀ u2, (n, u2) ∈ B2 → u2 ∉ fetched (ev ++ [ESleep 1]))) as Hkey.
  { intros s3 ev E.
    assert (n ∈ names_of (download_history sb) c) as Hrecd.
    { apply names_of_record. by eexists. }
    assert (file_path_of w c n ∉ opened ev) as Hnot.
    { intros Hop. destruct (eff_opened E _ Hop) as (n' & u' & Hin' & Hpath & Hn').
      apply Hn'. cbn [download_history].
      assert (n = n') as <-; [|done].
      apply (file_path_of_inj w c); [| |done].
      - rewrite Hn. apply basename_no_leading_slash.
      - rewrite (Hnames2 n' u' Hin'). apply basename_no_leading_slash. }
    split_and!.
    - by apply (eff_keep E).
    - rewrite (eff_disk E _ Hnot). exact Hdisk.
    - rewrite (eff_trace E). cbn [trace]. by rewrite <- app_assoc.
    - by rewrite opened_app, app_nil_l.
    - intros u2 Hin2. rewrite fetched_app, app_nil_l. intros Hf.
      destruct (eff_fetched E _ Hf) as (n' & Hin' & Hn').
      apply Hn'. cbn [download_history].
      by rewrite (Hnames2 n' u2 Hin'), <- (Hnames2 n u2 Hin2). }
  cbn [negb] in Hp.
  destruct (for_links w c B2 _ _) as [s3 [k|e]] eqn:Hf;
    destruct (for_links_effects w _ _ _ _ _ _ Hf) as [ev E];
    destruct (Hkey s3 ev E) as (K1 & K2 & K3 & K4 & K5);
    injection Hp as <- <-; cbn [download_history disk trace].
  - do 5 (split; [assumption|]).
    exists (ELog INFO ("Downloaded " +:+ pretty k +:+ " new files for " +:+ c)
            :: ev ++ [ESleep 1]).
    split; [|split].
    + by rewrite K3.
    + by rewrite opened_cons, app_nil_r.
    + intros u2 Hin2. rewrite fetched_cons, app_nil_r. by apply K5.
  - do 5 (split; [assumption|]).
    exists (ev ++ [ESleep 1]). by split; [|split].
Qed.

Lemma basename_collision_witness :
  url <$> record_of (download_history
                       (fst (process_sport Sample.w_twins "CBK" Sample.s_fresh)))
            "CBK" "X.TXT"
  = Some "http://www.kostats.com/CBK_Subscription/old/X.TXT"
  ∧ disk (fst (process_sport Sample.w_twins "CBK" Sample.s_fresh))
      !! file_path_of Sample.w_twins "CBK" "X.TXT"
    = Some "data of http://www.kostats.com/CBK_Subscription/old/X.TXT".
Proof.
  destruct (basename_collision Sample.w_twins "CBK" Sample.s_fresh
              (fst (get_file_links Sample.w_twins "CBK" Sample.s_fresh))
              []
              [("X.TXT", "http://www.kostats.com/CBK_Subscription/new/X.TXT")]
              "X.TXT" "http://www.kostats.com/CBK_Subscription/old/X.TXT"
              (fst (get_file_links Sample.w_twins "CBK" Sample.s_fresh))
              (fst (download_file Sample.w_twins "CBK" "X.TXT"
                      "http://www.kostats.com/CBK_Subscription/old/X.TXT"
                      (fst (get_file_links Sample.w_twins "CBK" Sample.s_fresh))))
              (fst (process_sport Sample.w_twins "CBK" Sample.s_fresh))
              0%Z (Ret 1%Z))
    as (_ & _ & r1 & ts & Hg & _ & _ & Hrec & Hdisk & _).
  - vm_compute. reflexivity.
  - reflexivity.
  - vm_compute. reflexivity.
  - vm_compute. reflexivity.
  - split.
    + by rewrite Hrec.
    + rewrite Hdisk. vm_compute in Hg. by injection Hg as <-.
Defined.

(** ** Start-up and logging in *)

Lemma posted_cons e t :
  posted (e :: t) =
  posted t ++ match e with EPost u d => [(u, d)] | _ => [] end.
Proof.
  unfold posted. cbn [rev]. rewrite omap_app. f_equal. by destruct e.
Qed.

Lemma slept_cons e t :
  slept (e :: t) = slept t ++ match e with ESleep n => [n] | _ => [] end.
Proof.
  unfold slept. cbn [rev]. rewrite omap_app. f_equal. by destruct e.
Qed.

Lemma slept_app t1 t2 : slept (t1 ++ t2) = slept t2 ++ slept t1.
Proof. unfold slept. by rewrite rev_app_distr, omap_app. Qed.

(** X1. Without a user name or without a password (unset or empty) the
    program stops in [__init__] with a [ValueError]: the history file is
    not read, nothing is requested, and the disk is left as it was. *)
Theorem missing_credentials_abort (w : World) (d : gmap string string) :
  PyStr.truthy_opt (env_USERNAME w) = false
  ∨ PyStr.truthy_opt (env_PASSWORD w) = false →
  main w d =
    (mkScraper ∅ d [ELog INFO "Starting KOStats scraper"],
     Raise (ValueError
       "Missing credentials. Set KOSTATS_USERNAME and KOSTATS_PASSWORD in .env file")).
Proof.
  intros H. unfold main, __init__. unfold bind at 1. unfold logger, emit.
  cbn [download_history disk trace]. unfold bind at 1.
  destruct H as [-> | ->]; [done|]. by rewrite orb_true_r.
Qed.

Lemma missing_credentials_abort_witness :
  snd (main Sample2.w_no_password ∅)
  = Raise (ValueError
      "Missing credentials. Set KOSTATS_USERNAME and KOSTATS_PASSWORD in .env file").
Proof.
  rewrite (missing_credentials_abort Sample2.w_no_password ∅); [reflexivity|].
  right. reflexivity.
Defined.

(** X2. When the login page carries no login form, [login] returns
    [False] without posting anything: the credentials are not sent.  It
    requested the login page and nothing else, and touched neither the
    history nor the disk. *)
Theorem login_without_form_posts_nothing (w : World) (s : Scraper)
    (page : Response) :
  session_get w (ELog INFO "Logging in to KOStats" :: trace s) LOGIN_URL
  = Ret page →
  soup_find_login_form w (text page) = None →
  snd (login w s) = Ret false
  ∧ posted (trace (fst (login w s))) = posted (trace s)
  ∧ fetched (trace (fst (login w s))) = fetched (trace s) ++ [LOGIN_URL]
  ∧ download_history (fst (login w s)) = download_history s
  ∧ disk (fst (login w s)) = disk s.
Proof.
  intros Hg Hf. unfold login. run_monad. rewrite Hg, Hf.
  cbn [fst snd download_history disk trace].
  rewrite !posted_cons, !fetched_cons, !app_nil_r. done.
Qed.

Lemma login_without_form_posts_nothing_witness :
  snd (login Sample2.w_no_form Sample.s_fresh) = Ret false
  ∧ posted (trace (fst (login Sample2.w_no_form Sample.s_fresh)))
    = posted (trace Sample.s_fresh).
Proof.
  destruct (login_without_form_posts_nothing Sample2.w_no_form Sample.s_fresh
              (mkResponse 200 "maintenance" "maintenance"))
    as (H1 & H2 & _).
  - reflexivity.
  - reflexivity.
  - by split.
Defined.

Lemma lookup_fold_add_input inputs k : ∀ d : gmap string string,
  fold_left add_input inputs d !! k
  = match form_value inputs k with
    | Some v => Some v
    | None => d !! k
    end.
Proof.
  induction inputs as [|[name value] r IH]; intros d; cbn [fold_left form_value].
  - done.
  - rewrite IH. destruct (form_value r k) as [v|]; [done|].
    unfold add_input. cbn [fst snd].
    destruct (PyStr.truthy_opt name); cbn [andb]; [|done].
    destruct (String.eqb_spec (default "" name) k) as [->|Hne].
    + apply lookup_insert_eq.
    + by apply lookup_insert_ne.
Qed.

Lemma startswith_http_truthy a :
  PyStr.startswith "http" a = true → PyStr.truthy a = true.
Proof. by destruct a. Qed.

(** X3. When the login page carries a login form, [login] works out
    where to send it: [LOGIN_URL] when the form has no action (or an
    empty one), the action itself when that starts with [http], and
    otherwise what [urljoin] makes of the action against [BASE_URL].
    When that yields a target, [login] sends exactly one POST, to that
    target; its data holds the user name under [amember_login] and the
    password under [amember_pass], whatever the form carried under those
    names, and for every other name the value of the last named input of
    the form.  When [urljoin] raises on the action, [login] raises that
    exception and posts nothing. *)
Theorem login_posts_credentials (w : World) (s : Scraper)
    (page : Response) (form : Form) :
  session_get w (ELog INFO "Logging in to KOStats" :: trace s) LOGIN_URL
  = Ret page →
  soup_find_login_form w (text page) = Some form →
  (∀ target, form_target w form = Ret target →
     ∃ d,
       posted (trace (fst (login w s))) = posted (trace s) ++ [(target, d)]
       ∧ d !! "amember_login" = Some (default "" (env_USERNAME w))
       ∧ d !! "amember_pass" = Some (default "" (env_PASSWORD w))
       ∧ (∀ k, k ≠ "amember_login" → k ≠ "amember_pass" →
            d !! k = form_value (form_inputs form) k))
  ∧ (∀ e, form_target w form = Raise e →
       snd (login w s) = Raise e
       ∧ posted (trace (fst (login w s))) = posted (trace s))
  ∧ (PyStr.truthy_opt (form_action form) = false →
       form_target w form = Ret LOGIN_URL)
  ∧ (∀ a, form_action form = Some a → PyStr.startswith "http" a = true →
       form_target w form = Ret a)
  ∧ (∀ a, form_action form = Some a → PyStr.truthy a = true →
       PyStr.startswith "http" a = false →
       form_target w form = urljoin w BASE_URL a).
Proof.
  intros Hg Hf. split_and!.
  - intros target Ht. unfold login. run_monad. rewrite Hg, Hf, Ht.
    set (d := <["amember_pass" := default "" (env_PASSWORD w)]>
                (<["amember_login" := default "" (env_USERNAME w)]>
                   (fold_left add_input (form_inputs form) ∅))).
    exists d. split_and!.
    + destruct (session_post w _ target d) as [resp|e].
      * destruct (_ || _)%bool; cbn [fst trace];
          by rewrite !posted_cons, !app_nil_r.
      * cbn [fst trace]. by rewrite !posted_cons, !app_nil_r.
    + unfold d. rewrite lookup_insert_ne by done. apply lookup_insert_eq.
    + unfold d. apply lookup_insert_eq.
    + intros k Hk1 Hk2. unfold d. rewrite !lookup_insert_ne by done.
      rewrite lookup_fold_add_input. by destruct (form_value _ k).
  - intros e He. unfold login. run_monad. rewrite Hg, Hf, He.
    cbn [fst snd trace]. by rewrite !posted_cons, !app_nil_r.
  - intros Ha. unfold form_target. by rewrite Ha.
  - intros a Ha Hhttp. unfold form_target. rewrite Ha.
    cbn [PyStr.truthy_opt default]. unfold id.
    by rewrite (startswith_http_truthy a Hhttp), Hhttp.
  - intros a Ha Ht Hhttp. unfold form_target. rewrite Ha.
    cbn [PyStr.truthy_opt default]. unfold id. by rewrite Ht, Hhttp.
Qed.

Lemma login_posts_credentials_witness :
  (∃ d,
     posted (trace (fst (login Sample.w_ok Sample.s_fresh)))
     = posted (trace Sample.s_fresh)
       ++ [("http://www.kostats.com/amember5/login", d)]
     ∧ d !! "amember_login" = Some "user"
     ∧ d !! "login_attempt_id" = Some "17")
  ∧ snd (login Sample2.w_bad_action Sample.s_fresh)
    = Raise (ValueError "Invalid IPv6 URL")
  ∧ posted (trace (fst (login Sample2.w_bad_action Sample.s_fresh)))
    = posted (trace Sample.s_fresh).
Proof.
  split.
  - destruct (login_posts_credentials Sample.w_ok Sample.s_fresh
                (mkResponse 200 "login page" "login page") Sample.login_form)
      as (H1 & _).
    + reflexivity.
    + reflexivity.
    + destruct (H1 "http://www.kostats.com/amember5/login")
        as (d & Hp & Hu & _ & Hk); [reflexivity|].
      exists d. split_and!; [exact Hp | exact Hu |].
      rewrite Hk by done. reflexivity.
  - destruct (login_posts_credentials Sample2.w_bad_action Sample.s_fresh
                (mkResponse 200 "login page" "login page")
                (mkForm (Some "//[") []))
      as (_ & H2 & _).
    + reflexivity.
    + reflexivity.
    + apply (H2 (ValueError "Invalid IPv6 URL")). reflexivity.
Defined.

(** ** What a download, a sport and a run leave behind *)





(** X5. A run never changes or removes a record: whatever the history
    held for a sport code and a file name before [run], it holds after
    it, however the run ends. *)
Theorem run_keeps_records (w : World) (s : Scraper) (c n : string)
    (r : DownloadRecord) :
  record_of (download_history s) c n = Some r →
  record_of (download_history (fst (run w s))) c n = Some r.
Proof.
  intros Hr. rewrite run_unfold.
  destruct (login w s) as [s1 [[|]|e]] eqn:Hl;
    destruct (login_state w _ _ _ Hl) as (ev & -> & _ & _); try done.
  destruct (for_sports w (dict_keys SPORT_PAGES) 0 _) as [s2 [total|e]] eqn:Hs;
    destruct (for_sports_effects w _ _ _ _ _ Hs) as [ev2 E];
    cbn [fst download_history]; by apply (se_keep E).
Qed.

Lemma run_keeps_records_witness :
  record_of (download_history (fst (run Sample.w_collision Sample.s_has_A)))
    "CBK" "A.TXT" = Some Sample.a_record.
Proof.
  apply (run_keeps_records Sample.w_collision Sample.s_has_A "CBK" "A.TXT").
  vm_compute. reflexivity.
Defined.

Section Accounting.

Variable w : World.

(** Pauses and count of a loop that got to its end. *)
Lemma for_links_account c B : ∀ k s s' k',
  for_links w c B k s = (s', Ret k') →
  ∃ ev, trace s' = ev ++ trace s
        ∧ slept ev = repeat 1%Z (length B)
        ∧ k' = (k + Z.of_nat (length (opened ev)))%Z
        ∧ (length (opened ev) ≤ length B)%nat.
Proof.
  induction B as [|[n u] rest IH]; intros k s s' k' Hl.
  - cbn in Hl. injection Hl as <- <-. exists []. cbn. split_and!; try done. lia.
  - rewrite for_links_cons in Hl.
    pose proof (download_file_cases w c n u s) as Hc.
    destruct (download_file w c n u s) as [s1 [got|e]]; [|done].
    destruct (IH _ _ _ _ Hl) as (ev & Ht & Hsl & Hk & Hle). cbn [trace] in Ht.
    inversion Hc as [Hin | | r Hin Hg Hst | | r Hin Hg Hst Hdir]; subst.
    + eexists (ev ++ [ESleep 1; _]). cbn [trace] in Ht. split_and!.
      * by rewrite Ht, <- app_assoc.
      * rewrite slept_app, Hsl. reflexivity.
      * rewrite opened_app, app_nil_l. lia.
      * rewrite opened_app, app_nil_l. cbn [length]. lia.
    + eexists (ev ++ [ESleep 1; _; EGet u; ELog INFO ("Downloading " +:+ n)]).
      cbn [trace] in Ht. split_and!.
      * by rewrite Ht, <- app_assoc.
      * rewrite slept_app, Hsl. reflexivity.
      * rewrite opened_app, app_nil_l. lia.
      * rewrite opened_app, app_nil_l. cbn [length]. lia.
    + eexists (ev ++ [ESleep 1; _; EWrite (file_path_of w c n) (content r);
                      EOpenW (file_path_of w c n); EGet u;
                      ELog INFO ("Downloading " +:+ n)]).
      cbn [trace] in Ht. split_and!.
      * by rewrite Ht, <- app_assoc.
      * rewrite slept_app, Hsl. reflexivity.
      * rewrite opened_app, length_app, !opened_cons, !app_nil_r.
        change (opened []) with (@nil string). cbn [app length]. lia.
      * rewrite opened_app, length_app, !opened_cons, !app_nil_r.
        change (opened []) with (@nil string). cbn [app length]. lia.
Qed.

End Accounting.

(** X6. When [process_sport] gets to its end, it has paused one second
    once per listed link, whether the link was downloaded, skipped or
    refused. *)
Theorem one_pause_per_listed_link (w : World) (c : string) (s s1 s2 : Scraper)
    (B : list (string * string)) (k : Z) :
  get_file_links w c s = (s1, Ret B) →
  process_sport w c s = (s2, Ret k) →
  ∃ ev, trace s2 = ev ++ trace s1
        ∧ slept ev = repeat 1%Z (length B).
Proof.
  intros Hl Hp. rewrite process_sport_unfold, Hl in Hp.
  destruct (for_links w c B 0 s1) as [s3 [k3|e]] eqn:Hf; [|done].
  destruct (for_links_account w _ _ _ _ _ _ Hf) as (ev & Ht & Hsl & _).
  injection Hp as <- <-. eexists (_ :: ev). cbn [trace]. split.
  - by rewrite Ht.
  - by rewrite slept_cons, app_nil_r.
Qed.

Lemma one_pause_per_listed_link_witness :
  ∃ ev,
    trace (fst (process_sport Sample.w_ok "CBK" Sample.s_has_A))
    = ev ++ trace (fst (get_file_links Sample.w_ok "CBK" Sample.s_has_A))
    ∧ slept ev = [1; 1; 1]%Z.
Proof.
  apply (one_pause_per_listed_link Sample.w_ok "CBK" Sample.s_has_A
           (fst (get_file_links Sample.w_ok "CBK" Sample.s_has_A))
           (fst (process_sport Sample.w_ok "CBK" Sample.s_has_A))
           [("A.TXT", "http://www.kostats.com/CBK_Subscription/A.TXT");
            ("B.txt", "http://www.kostats.com/CBK_Subscription/B.txt");
            ("A.TXT", "http://www.kostats.com/CBK_Subscription/A.TXT")]
           1%Z); vm_compute; reflexivity.
Defined.

(** X7. The number [process_sport] returns is the number of files it
    opened for writing, whatever was skipped or refused, and it is at
    most the number of listed links. *)
Theorem count_is_files_written (w : World) (c : string) (s s1 s2 : Scraper)
    (B : list (string * string)) (k : Z) :
  get_file_links w c s = (s1, Ret B) →
  process_sport w c s = (s2, Ret k) →
  ∃ ev, trace s2 = ev ++ trace s1
        ∧ k = Z.of_nat (length (opened ev))
        ∧ (0 ≤ k ≤ Z.of_nat (length B))%Z.
Proof.
  intros Hl Hp. rewrite process_sport_unfold, Hl in Hp.
  destruct (for_links w c B 0 s1) as [s3 [k3|e]] eqn:Hf; [|done].
  destruct (for_links_account w _ _ _ _ _ _ Hf) as (ev & Ht & _ & Hk & Hle).
  injection Hp as <- <-. eexists (ELog INFO _ :: ev). cbn [trace].
  rewrite opened_cons, app_nil_r. split_and!.
  - by rewrite Ht.
  - lia.
  - lia.
  - lia.
Qed.

Lemma count_is_files_written_witness :
  ∃ ev,
    trace (fst (process_sport Sample.w_collision "CBK" Sample.s_fresh))
    = ev ++ trace (fst (get_file_links Sample.w_collision "CBK" Sample.s_fresh))
    ∧ 1%Z = Z.of_nat (length (opened ev)).
Proof.
  destruct (count_is_files_written Sample.w_collision "CBK" Sample.s_fresh
              (fst (get_file_links Sample.w_collision "CBK" Sample.s_fresh))
              (fst (process_sport Sample.w_collision "CBK" Sample.s_fresh))
              [("X.TXT", "http://www.kostats.com/CBK_Subscription/old/X.TXT");
               ("X.TXT", "http://www.kostats.com/CBK_Subscription/new/X.TXT")]
              1%Z)
    as (ev & H1 & H2 & _).
  - vm_compute. reflexivity.
  - vm_compute. reflexivity.
  - by exists ev.
Defined.

(** ** Where a run writes *)

Lemma join2_prefix b :
  ∃ P, ∀ x, PyStr.startswith "/" x = false → PyStr.join2 b x = P +:+ x.
Proof.
  destruct (negb (PyStr.truthy b) || PyStr.endswith "/" b)%bool eqn:Hc.
  - exists b. intros x Hx. unfold PyStr.join2. by rewrite Hx, Hc.
  - exists (b +:+ "/"). intros x Hx. unfold PyStr.join2.
    by rewrite Hx, Hc, append_assoc.
Qed.

Lemma configured_codes c :
  c ∈ dict_keys SPORT_PAGES →
  c = "CBK" ∨ c = "CFB" ∨ c = "MLB" ∨ c = "NBA" ∨ c = "NFL" ∨ c = "NHL".
Proof.
  unfold dict_keys, SPORT_PAGES. cbn [map fst].
  rewrite !elem_of_cons, elem_of_nil. tauto.
Qed.

Lemma configured_code_no_slash c :
  c ∈ dict_keys SPORT_PAGES → PyStr.startswith "/" c = false.
Proof.
  intros Hc. by destruct (configured_codes c Hc) as [->|[->|[->|[->|[->| ->]]]]].
Qed.

(** Both the history file and the destinations of downloads start with
    the same prefix, followed by the file name or by the sport code. *)
Lemma paths_shape w :
  ∃ P, HISTORY_FILE w = P +:+ "download_history.json"
       ∧ ∀ c n, c ∈ dict_keys SPORT_PAGES → PyStr.startswith "/" n = false →
           ∃ rest, file_path_of w c n = P +:+ c +:+ rest.
Proof.
  destruct (join2_prefix (BASE_DOWNLOAD_DIR w)) as [P HP]. exists P. split.
  - unfold HISTORY_FILE, PyStr.join. cbn [fold_left]. by apply HP.
  - intros c n Hc Hn. unfold file_path_of, PyStr.join. cbn [fold_left].
    rewrite (HP c (configured_code_no_slash c Hc)).
    unfold PyStr.join2. rewrite Hn.
    destruct (negb (PyStr.truthy (P +:+ c)) || PyStr.endswith "/" (P +:+ c))%bool.
    + exists n. by rewrite append_assoc.
    + exists ("/" +:+ n). by rewrite append_assoc.
Qed.

Lemma file_path_not_history w c n :
  c ∈ dict_keys SPORT_PAGES → PyStr.startswith "/" n = false →
  file_path_of w c n ≠ HISTORY_FILE w.
Proof.
  intros Hc Hn. destruct (paths_shape w) as (P & HH & HF).
  destruct (HF c n Hc Hn) as [rest ->]. rewrite HH.
  intros H%append_inj_l.
  destruct (configured_codes c Hc) as [->|[->|[->|[->|[->| ->]]]]];
    vm_compute in H; discriminate.
Qed.

Lemma file_path_cross w c c' n n' :
  c ∈ dict_keys SPORT_PAGES → c' ∈ dict_keys SPORT_PAGES →
  PyStr.startswith "/" n = false → PyStr.startswith "/" n' = false →
  file_path_of w c n = file_path_of w c' n' → c = c' ∧ n = n'.
Proof.
  intros Hc Hc' Hn Hn' Heq.
  destruct (decide (c = c')) as [<-|Hne].
  - split; [done|]. by apply (file_path_of_inj w c).
  - exfalso. destruct (paths_shape w) as (P & _ & HF).
    destruct (HF c n Hc Hn) as [rest Hr].
    destruct (HF c' n' Hc' Hn') as [rest' Hr'].
    rewrite Hr, Hr' in Heq. apply append_inj_l in Heq.
    destruct (configured_codes c Hc) as [->|[->|[->|[->|[->| ->]]]]];
      destruct (configured_codes c' Hc') as [->|[->|[->|[->|[->| ->]]]]];
      try done; vm_compute in Heq; discriminate.
Qed.

Section Writes.

Variable w : World.

(** The files a sport opens are destinations of listed items whose names
    were not recorded. *)
Lemma process_sport_opened c s s' res :
  process_sport w c s = (s', res) →
  ∃ ev, sports_effects w [c] s s' ev
        ∧ ∀ p, p ∈ opened ev →
            ∃ u, c ∈ dict_keys SPORT_PAGES
                 ∧ p = file_path_of w c (PyStr.basename u)
                 ∧ PyStr.basename u ∉ names_of (download_history s) c.
Proof.
  rewrite process_sport_unfold.
  destruct (get_file_links w c s) as [s1 [B|e]] eqn:Hl.
  - destruct (get_file_links_state w _ _ _ _ Hl) as (ev0 & Hs1 & Ho & _).
    assert (∀ s2 ev,
              effects w c B s1 s2 ev →
              ∀ p, p ∈ opened (ev ++ ev0) →
                ∃ u, c ∈ dict_keys SPORT_PAGES
                     ∧ p = file_path_of w c (PyStr.basename u)
                     ∧ PyStr.basename u ∉ names_of (download_history s) c)
      as Hkey.
    { intros s2 ev E p. rewrite opened_app, Ho, app_nil_l. intros Hp.
      destruct (eff_opened E p Hp) as (n & u & Hin & -> & Hn).
      destruct (get_file_links_names w _ _ _ _ Hl n u Hin)
        as (-> & url & href & Hu & _).
      exists u. split_and!; try done.
      - apply sport_code_configured. by eexists.
      - by rewrite Hs1 in Hn. }
    subst s1.
    destruct (for_links w c B 0 _) as [s2 [k|e]] eqn:Hf;
      destruct (for_links_effects w _ _ _ _ _ _ Hf) as [ev E];
      intros [= <- <-].
    + exists (ELog INFO ("Downloaded " +:+ pretty k +:+ " new files for " +:+ c)
              :: ev ++ ev0). split.
      * apply sports_effects_log.
        by apply (sports_effects_of_links w c B s ev0 s2 ev).
      * intros p. rewrite opened_cons, app_nil_r. by apply (Hkey s2 ev).
    + exists (ev ++ ev0). split.
      * by apply (sports_effects_of_links w c B s ev0 s2 ev).
      * by apply (Hkey s2 ev).
  - destruct (get_file_links_state w _ _ _ _ Hl) as (ev0 & -> & Ho & _).
    intros [= <- <-]. exists ev0. split.
    + split; cbn [download_history disk trace]; try done.
      rewrite Ho. by intros p ?%elem_of_nil.
    + rewrite Ho. by intros p ?%elem_of_nil.
Qed.

End Writes.

Lemma for_sports_opened w codes : ∀ total s s' res,
  for_sports w codes total s = (s', res) →
  ∃ ev, sports_effects w codes s s' ev
        ∧ ∀ p, p ∈ opened ev →
            ∃ c u, c ∈ dict_keys SPORT_PAGES
                   ∧ p = file_path_of w c (PyStr.basename u)
                   ∧ PyStr.basename u ∉ names_of (download_history s) c.
Proof.
  induction codes as [|c0 rest IH]; intros total s s' res Hs.
  - cbn in Hs. injection Hs as <- <-. exists []. split.
    + apply sports_effects_nil.
    + by intros p ?%elem_of_nil.
  - rewrite for_sports_cons in Hs.
    destruct (process_sport w c0 s) as [s1 [k|e]] eqn:Hp;
      destruct (process_sport_opened w _ _ _ _ Hp) as (ev1 & E1 & H1).
    + destruct (IH _ _ _ _ Hs) as (ev2 & E2 & H2). exists (ev2 ++ ev1). split.
      * apply (sports_effects_trans w [c0] rest _ _ _ _ _ E1 E2).
      * intros p. rewrite opened_app, elem_of_app. intros [Hp1|Hp2].
        -- destruct (H1 p Hp1) as (u & ? & ? & ?). by exists c0, u.
        -- destruct (H2 p Hp2) as (c & u & Hc & -> & Hn).
           exists c, u. split_and!; try done.
           intros Hn'. apply Hn.
           by apply (sports_effects_names_mono w _ _ _ _ _ _ E1).
    + injection Hs as <- <-. exists (([] : list event) ++ ev1). split.
      * apply (sports_effects_trans w [c0] rest s s1 s1 ev1 []); [done|].
        split; try done. by intros p ?%elem_of_nil.
      * intros p. cbn [app]. intros Hp1.
        destruct (H1 p Hp1) as (u & ? & ? & ?). by exists c0, u.
Qed.

(** X9. Apart from the log file, which every log line is appended to
    and which is not among the files of [disk], a run writes nowhere but
    to the history file and to the destinations [<base>/<sport>/<name>]
    of configured sports, [name] being the last segment of a URL: every
    other file is after the run what it was before. *)
Theorem run_writes_only_downloads_and_history (w : World) (s : Scraper)
    (p : string) :
  p ≠ LOG_FILE →
  p ≠ HISTORY_FILE w →
  (∀ c u, c ∈ dict_keys SPORT_PAGES → p ≠ file_path_of w c (PyStr.basename u)) →
  disk (fst (run w s)) !! p = disk s !! p.
Proof.
  intros _ Hh Hd. rewrite run_unfold.
  destruct (login w s) as [s1 [[|]|e]] eqn:Hl;
    destruct (login_state w _ _ _ Hl) as (ev & -> & _ & _); try done.
  assert (∀ s2 res,
            for_sports w (dict_keys SPORT_PAGES) 0
              (mkScraper (download_history s) (disk s) (ev ++ trace s))
            = (s2, res) → disk s2 !! p = disk s !! p) as Hkey.
  { intros s2 res Hs. destruct (for_sports_opened w _ _ _ _ _ Hs) as (ev2 & E & Ho).
    rewrite (se_disk E); [done|]. intros Hp.
    destruct (Ho p Hp) as (c & u & Hc & -> & _). by apply (Hd c u). }
  destruct (for_sports w (dict_keys SPORT_PAGES) 0 _) as [s2 [total|e]] eqn:Hs;
    cbn [fst disk].
  - rewrite lookup_insert_ne by done. by apply (Hkey s2 (Ret total)).
  - by apply (Hkey s2 (Raise e)).
Qed.

Lemma run_writes_only_downloads_and_history_witness :
  disk (fst (run Sample.w_ok (mkScraper ∅ {["notes.md" := "keep"]} [])))
    !! "notes.md" = Some "keep".
Proof.
  rewrite (run_writes_only_downloads_and_history Sample.w_ok
             (mkScraper ∅ {["notes.md" := "keep"]} []) "notes.md").
  - reflexivity.
  - discriminate.
  - vm_compute. discriminate.
  - intros c u Hc H.
    unfold file_path_of, PyStr.join in H. cbn [fold_left] in H.
    unfold PyStr.join2 at 1 in H. rewrite basename_no_leading_slash in H.
    destruct (configured_codes c Hc) as [->|[->|[->|[->|[->| ->]]]]];
      vm_compute in H; discriminate.
Defined.

(** X10. The history file is written at the very end of a run and
    nowhere else: when [run] raises, the history file is on disk what it
    was before the run, so what the run had recorded in memory is not
    persisted. *)
Theorem run_that_raises_saves_nothing (w : World) (s : Scraper) (e : exn) :
  snd (run w s) = Raise e →
  disk (fst (run w s)) !! HISTORY_FILE w = disk s !! HISTORY_FILE w.
Proof.
  rewrite run_unfold.
  destruct (login w s) as [s1 [[|]|e1]] eqn:Hl;
    destruct (login_state w _ _ _ Hl) as (ev & -> & _ & _); try done.
  destruct (for_sports w (dict_keys SPORT_PAGES) 0 _) as [s2 [total|e2]] eqn:Hs;
    [done|].
  cbn [fst snd]. intros _.
  destruct (for_sports_opened w _ _ _ _ _ Hs) as (ev2 & E & Ho).
  rewrite (se_disk E); [done|]. intros Hp.
  destruct (Ho _ Hp) as (c & u & Hc & Heq & _).
  symmetry in Heq. revert Heq.
  apply file_path_not_history; [done|]. apply basename_no_leading_slash.
Qed.

Lemma run_that_raises_saves_nothing_witness :
  snd (run Sample2.w_file_down
         (mkScraper ∅ {["downloads/download_history.json" := "{CBK:{}}"]} []))
  = Raise (RequestException "connection refused")
  ∧ disk (fst (run Sample2.w_file_down
                 (mkScraper ∅ {["downloads/download_history.json" := "{CBK:{}}"]} [])))
      !! HISTORY_FILE Sample2.w_file_down = Some "{CBK:{}}".
Proof.
  assert (snd (run Sample2.w_file_down
                 (mkScraper ∅ {["downloads/download_history.json" := "{CBK:{}}"]} []))
          = Raise (RequestException "connection refused")) as H
    by (vm_compute; reflexivity).
  split; [exact H|].
  rewrite (run_that_raises_saves_nothing Sample2.w_file_down _ _ H).
  reflexivity.
Defined.

(** X11. A file that is recorded in the history is not written again:
    for a configured sport code and a recorded name (not starting with a
    slash, as every name the program records), the destination file is
    after the run what it was before, whatever the site now serves under
    that name. *)
Theorem recorded_file_not_rewritten (w : World) (s : Scraper) (c n : string)
    (r : DownloadRecord) :
  record_of (download_history s) c n = Some r →
  c ∈ dict_keys SPORT_PAGES →
  PyStr.startswith "/" n = false →
  disk (fst (run w s)) !! file_path_of w c n = disk s !! file_path_of w c n.
Proof.
  intros Hr Hc Hn. rewrite run_unfold.
  destruct (login w s) as [s1 [[|]|e]] eqn:Hl;
    destruct (login_state w _ _ _ Hl) as (ev & -> & _ & _); try done.
  assert (∀ s2 res,
            for_sports w (dict_keys SPORT_PAGES) 0
              (mkScraper (download_history s) (disk s) (ev ++ trace s))
            = (s2, res) →
            disk s2 !! file_path_of w c n = disk s !! file_path_of w c n) as Hkey.
  { intros s2 res Hs.
    destruct (for_sports_opened w _ _ _ _ _ Hs) as (ev2 & E & Ho).
    rewrite (se_disk E); [done|]. intros Hp.
    destruct (Ho _ Hp) as (c' & u & Hc' & Heq & Hnew).
    cbn [download_history] in Hnew.
    destruct (file_path_cross w c c' n (PyStr.basename u) Hc Hc' Hn
                (basename_no_leading_slash u) Heq) as [<- Hnb].
    rewrite <- Hnb in Hnew. apply Hnew, names_of_record. by exists r. }
  destruct (for_sports w (dict_keys SPORT_PAGES) 0 _) as [s2 [total|e]] eqn:Hs;
    cbn [fst disk].
  - rewrite lookup_insert_ne.
    + by apply (Hkey s2 (Ret total)).
    + intros Heq. by apply (file_path_not_history w c n Hc Hn).
  - by apply (Hkey s2 (Raise e)).
Qed.

Lemma recorded_file_not_rewritten_witness :
  disk (fst (run Sample.w_ok
               (mkScraper {["CBK" := {["A.TXT" := Sample.a_record]}]}
                          {["downloads/CBK/A.TXT" := "first edition"]} [])))
    !! "downloads/CBK/A.TXT" = Some "first edition".
Proof.
  change "downloads/CBK/A.TXT" with (file_path_of Sample.w_ok "CBK" "A.TXT") at 2.
  rewrite (recorded_file_not_rewritten Sample.w_ok _ "CBK" "A.TXT" Sample.a_record).
  - reflexivity.
  - vm_compute. reflexivity.
  - apply sport_code_configured. vm_compute. by eexists.
  - reflexivity.
Defined.

(** X12. Saving and then loading gives the history back, whenever
    [json.load] reads back what [json.dump] wrote for it; no error is
    logged and nothing else on disk changes. *)
Theorem save_then_load (w : World) (s : Scraper) :
  json_load w (written_text (json_dump w (download_history s)))
  = JsonValue (download_history s) →
  _load_download_history w (fst (_save_download_history w s))
  = (fst (_save_download_history w s), Ret (download_history s))
  ∧ (∀ p, p ≠ HISTORY_FILE w →
       disk (fst (_save_download_history w s)) !! p = disk s !! p).
Proof.
  intros Hrt. rewrite save_download_history_state. cbn [fst]. split.
  - unfold _load_download_history. run_monad.
    rewrite lookup_insert_eq, Hrt. reflexivity.
  - intros p Hp. cbn [disk]. by apply lookup_insert_ne.
Qed.

Lemma save_then_load_witness :
  json_load Sample2.w_json
    (written_text (json_dump Sample2.w_json (download_history Sample.s_saved_before)))
  = JsonValue {["CBK" := {["A.TXT" := Sample.a_record]}]}
  ∧ snd (_load_download_history Sample2.w_json
           (fst (_save_download_history Sample2.w_json Sample.s_saved_before)))
    = Ret {["CBK" := {["A.TXT" := Sample.a_record]}]}.
Proof.
  assert (json_load Sample2.w_json
            (written_text
               (json_dump Sample2.w_json (download_history Sample.s_saved_before)))
          = JsonValue (download_history Sample.s_saved_before)) as Hrt
    by (vm_compute; reflexivity).
  split; [exact Hrt|].
  rewrite (proj1 (save_then_load Sample2.w_json Sample.s_saved_before Hrt)).
  reflexivity.
Defined.

(** X13. What a complete run persisted is what the next start-up loads:
    after a run that logged in and got to its end, [__init__] on the disk
    it left sets the history to the one the run ended with, whenever
    [json.load] reads back what [json.dump] wrote for that history. *)
Theorem restart_sees_saved_history (w : World) (s sa s1 : Scraper)
    (t0 : list event) :
  login w s = (sa, Ret true) →
  run w s = (s1, Ret tt) →
  json_load w (written_text (json_dump w (download_history s1)))
  = JsonValue (download_history s1) →
  PyStr.truthy_opt (env_USERNAME w) = true →
  PyStr.truthy_opt (env_PASSWORD w) = true →
  __init__ w (mkScraper ∅ (disk s1) t0)
  = (mkScraper (download_history s1) (disk s1) t0, Ret tt).
Proof.
  intros Hl Hrun Hrt Hu Hp. rewrite run_unfold, Hl in Hrun.
  destruct (for_sports w (dict_keys SPORT_PAGES) 0 sa) as [s2 [total|e]];
    [|discriminate].
  injection Hrun as <-. cbn [download_history disk] in Hrt |- *.
  unfold __init__. rewrite Hu, Hp. cbn [negb orb].
  unfold _load_download_history. run_monad.
  rewrite lookup_insert_eq, Hrt. reflexivity.
Qed.

Lemma restart_sees_saved_history_witness :
  __init__ Sample2.w_json
    (mkScraper ∅ (disk (fst (run Sample2.w_json Sample2.s_with_wnba))) [])
  = (mkScraper (download_history (fst (run Sample2.w_json Sample2.s_with_wnba)))
       (disk (fst (run Sample2.w_json Sample2.s_with_wnba))) [],
     Ret tt)
  ∧ is_Some (record_of (download_history
                          (fst (run Sample2.w_json Sample2.s_with_wnba)))
               "CBK" "A.TXT")
  ∧ is_Some (record_of (download_history
                          (fst (run Sample2.w_json Sample2.s_with_wnba)))
               "WNBA" "W.TXT").
Proof.
  split_and!.
  - apply (restart_sees_saved_history Sample2.w_json Sample2.s_with_wnba
             (fst (login Sample2.w_json Sample2.s_with_wnba))).
    + vm_compute. reflexivity.
    + vm_compute. reflexivity.
    + vm_compute. reflexivity.
    + reflexivity.
    + reflexivity.
  - vm_compute. by eexists.
  - vm_compute. by eexists.
Defined.

(** ** A sport whose page is refused *)

(** X14. A sport whose page answers with a status other than 200 is
    passed over and the loop over the sports goes on with the next one:
    the page was requested once, no file was fetched or opened, no pause
    was taken, the history and the disk are unchanged, and the running
    total is what it was. *)
Theorem refused_listing_skips_sport (w : World) (c : string)
    (rest : list string) (total : Z) (s : Scraper) (sport_url : string)
    (r : Response) :
  dict_get SPORT_PAGES c = Some sport_url →
  session_get w (trace_listing c (trace s)) sport_url = Ret r →
  status_code r ≠ 200%Z →
  ∃ ev,
    for_sports w (c :: rest) total s
    = for_sports w rest total
        (mkScraper (download_history s) (disk s) (ev ++ trace s))
    ∧ fetched ev = [sport_url] ∧ opened ev = [] ∧ slept ev = [].
Proof.
  intros Hu Hg Hst. rewrite for_sports_cons, process_sport_unfold.
  pose proof (get_file_links_cases w c s) as Hc.
  inversion Hc as [Hu' Heq | u e Hu' Hg' Heq | u r' Hu' Hg' Hst' Heq
                   | u r' e Hu' Hg' Hst' Hl Heq | u r' l Hu' Hg' Hst' Hl Heq];
    try congruence.
  assert (u = sport_url) as -> by congruence.
  assert (r' = r) as -> by congruence.
  cbn [for_links ret download_history disk trace]. rewrite Z.add_0_r.
  eexists [ELog INFO _; ELog ERROR _; EGet sport_url;
           ELog INFO ("Getting file links for " +:+ c)].
  split_and!; reflexivity.
Qed.

Lemma refused_listing_skips_sport_witness :
  ∃ ev,
    for_sports Sample2.w_cfb_500 ["CFB"; "MLB"] 1 Sample.s_fresh
    = for_sports Sample2.w_cfb_500 ["MLB"] 1
        (mkScraper (download_history Sample.s_fresh) (disk Sample.s_fresh)
           (ev ++ trace Sample.s_fresh))
    ∧ fetched ev = ["http://www.kostats.com/CFB_Subscription/CFB.HTM"].
Proof.
  destruct (refused_listing_skips_sport Sample2.w_cfb_500 "CFB" ["MLB"] 1
              Sample.s_fresh "http://www.kostats.com/CFB_Subscription/CFB.HTM"
              (mkResponse 500 "" ""))
    as (ev & H1 & H2 & _).
  - reflexivity.
  - reflexivity.
  - discriminate.
  - by exists ev.
Defined.

(** ** The string routines *)

Lemma rev_onto_append s : ∀ acc,
  PyStr.rev_onto s acc = PyStr.reverse s +:+ acc.
Proof.
  induction s as [|a s IH]; intros acc; [done|].
  unfold PyStr.reverse. cbn [PyStr.rev_onto].
  rewrite (IH (String a acc)), (IH (String a "")).
  by rewrite append_assoc.
Qed.

Lemma reverse_app a b :
  PyStr.reverse (a +:+ b) = PyStr.reverse b +:+ PyStr.reverse a.
Proof.
  induction a as [|c a IH].
  - change ("" +:+ b) with b. by rewrite append_empty_r.
  - change (String c a +:+ b) with (String c (a +:+ b)).
    unfold PyStr.reverse at 1 3. cbn [PyStr.rev_onto].
    by rewrite !rev_onto_append, IH, append_assoc.
Qed.

Lemma reverse_involutive s : PyStr.reverse (PyStr.reverse s) = s.
Proof.
  induction s as [|c s IH]; [done|].
  unfold PyStr.reverse at 2. cbn [PyStr.rev_onto].
  by rewrite rev_onto_append, reverse_app, IH.
Qed.

Lemma prefix_spec p : ∀ s,
  String.prefix p s = true ↔ ∃ y, s = p +:+ y.
Proof.
  induction p as [|a p IH]; intros s.
  - split; [intros _; exists s; reflexivity | intros _; by destruct s].
  - destruct s as [|b s]; simpl.
    + split; [done | by intros [y ?]].
    + destruct (ascii_dec a b) as [->|Hne].
      * rewrite IH. split; intros [y Hy]; exists y.
        -- change (String b p +:+ y) with (String b (p +:+ y)). by rewrite Hy.
        -- change (String b p +:+ y) with (String b (p +:+ y)) in Hy.
           by injection Hy.
      * split; [done|]. intros [y Hy].
        change (String a p +:+ y) with (String a (p +:+ y)) in Hy.
        injection Hy as ? ?. by subst.
Qed.

Lemma endswith_spec p s :
  PyStr.endswith p s = true ↔ ∃ x, s = x +:+ p.
Proof.
  unfold PyStr.endswith. rewrite prefix_spec. split.
  - intros [y Hy]. exists (PyStr.reverse y).
    apply (f_equal PyStr.reverse) in Hy.
    by rewrite reverse_involutive, reverse_app, reverse_involutive in Hy.
  - intros [x ->]. exists (PyStr.reverse x). apply reverse_app.
Qed.

Lemma basename_from_after_slash x n : ∀ cur,
  PyStr.basename_from (x +:+ String "/" n) cur = PyStr.basename_from n "".
Proof.
  induction x as [|a x IH]; intros cur.
  - change ("" +:+ String "/" n) with (String "/" n). reflexivity.
  - change (String a x +:+ String "/" n) with (String a (x +:+ String "/" n)).
    cbn [PyStr.basename_from]. destruct (Ascii.eqb a "/"); apply IH.
Qed.

Lemma basename_from_no_slash_id n : ∀ cur,
  "/"%char ∉ list_ascii_of_string n →
  PyStr.basename_from n cur = PyStr.reverse cur +:+ n.
Proof.
  induction n as [|a n IH]; intros cur Hn; cbn [PyStr.basename_from].
  - by rewrite append_empty_r.
  - cbn [list_ascii_of_string] in Hn. apply not_elem_of_cons in Hn as [Ha Hn].
    destruct (Ascii.eqb_spec a "/"%char) as [->|_]; [done|].
    rewrite (IH _ Hn). unfold PyStr.reverse at 1. cbn [PyStr.rev_onto].
    by rewrite rev_onto_append, append_assoc.
Qed.

(** X16. A downloaded file is stored under the name of its item: the
    last segment of the destination built for a listed name (itself the
    last segment of a URL) is that name, whatever the base directory and
    the sport code. *)
Theorem destination_keeps_name (w : World) (c u : string) :
  PyStr.basename (file_path_of w c (PyStr.basename u)) = PyStr.basename u.
Proof.
  assert (∀ n, "/"%char ∉ list_ascii_of_string n →
               PyStr.basename_from n "" = n) as Hid.
  { intros n Hn. by rewrite basename_from_no_slash_id. }
  assert ("/"%char ∉ list_ascii_of_string (PyStr.basename u)) as Hn.
  { apply basename_from_no_slash. cbn. apply not_elem_of_nil. }
  unfold file_path_of, PyStr.join. cbn [fold_left].
  set (X := PyStr.join2 (BASE_DOWNLOAD_DIR w) c).
  unfold PyStr.join2. rewrite basename_no_leading_slash.
  unfold PyStr.basename at 1.
  destruct (PyStr.truthy X) eqn:Ht; cbn [negb orb].
  - destruct (PyStr.endswith "/" X) eqn:He.
    + apply endswith_spec in He as [x ->].
      rewrite append_assoc. change ("/" +:+ ?y) with (String "/"%char y).
      rewrite basename_from_after_slash. by apply Hid.
    + change ("/" +:+ ?y) with (String "/"%char y).
      rewrite basename_from_after_slash. by apply Hid.
  - destruct X; [|done]. change ("" +:+ ?y) with y. by apply Hid.
Qed.
